(** * Veya API: personalization catalog, profile document and onboarding status

    A shallow embedding of the personalization core of [veya-api]:

    - [app/models/user.py]: the [UserProfile] personalization helpers;
    - [app/utils/profile_validator.py]: template-code validation;
    - [app/utils/template_seeder.py]: the active-template listing;
    - [app/api/routes/admin_templates.py]: the admin catalog handlers;
    - [app/api/routes/templates.py]: the onboarding screen view;
    - [app/api/routes/user.py]: the onboarding status computation.

    Python dictionaries used as maps are [gmap]s, Python sets are [gset]s,
    database tables are lists of rows in storage order, handlers that touch
    the session are written in a small state-and-exception monad, and Python
    floats are IEEE binary64 numbers ([SpecFloat] at precision 53). *)

From Stdlib Require Import ZArith Ascii String Floats.SpecFloat.
From stdpp Require Import gmap strings list sorting.

Open Scope string_scope.
Open Scope Z_scope.

(** ** Python values stored in JSON documents *)

Module Py.

#[local] Set Warnings "-register-all".

(** A JSON-compatible Python value. A [VSet] carries its elements in the
    iteration order of the set; numbers stored in documents are integers. *)
Inductive Value : Type :=
| VNone
| VBool (b : bool)
| VInt (z : Z)
| VStr (s : string)
| VList (l : list Value)
| VTuple (l : list Value)
| VSet (l : list Value)
| VDict (d : list (string * Value)).

Definition is_nil {A} (l : list A) : bool :=
  match l with [] => true | _ => false end.

(** [bool(value)]: Python truthiness. *)
Definition truthy (v : Value) : bool :=
  match v with
  | VNone => false
  | VBool b => b
  | VInt z => negb (z =? 0)
  | VStr s => negb (String.eqb s "")
  | VList l | VTuple l | VSet l => negb (is_nil l)
  | VDict d => negb (is_nil d)
  end.

(** Characters for which [str.isspace] holds, among the ASCII ones. *)
Definition isspace (c : ascii) : bool :=
  let n := nat_of_ascii c in
  ((9 <=? n)%nat && (n <=? 13)%nat) || ((28 <=? n)%nat && (n <=? 32)%nat).

Fixpoint lstrip (s : string) : string :=
  match s with
  | EmptyString => EmptyString
  | String c s' => if isspace c then lstrip s' else s
  end.

Fixpoint rstrip (s : string) : string :=
  match s with
  | EmptyString => EmptyString
  | String c s' =>
      match rstrip s' with
      | EmptyString => if isspace c then EmptyString else String c EmptyString
      | r => String c r
      end
  end.

(** [str.strip()] *)
Definition strip (s : string) : string := rstrip (lstrip s).

(** *** Numbers: [int] and [float]

    A Python [float] is an IEEE binary64 number. *)

Definition prec : Z := 53.
Definition emax : Z := 1024.

Inductive number : Type :=
| NInt (z : Z)
| NFloat (f : spec_float).

(** [float(z)] *)
Definition of_int (z : Z) : spec_float := binary_normalize prec emax z 0 false.

Definition to_float (n : number) : spec_float :=
  match n with
  | NInt z => of_int z
  | NFloat f => f
  end.

(** [a / b] on integers: true division. *)
Definition py_truediv (a b : Z) : number :=
  NFloat (SFdiv prec emax (of_int a) (of_int b)).

(** [a * b], [a + b] and [a < b] with the usual promotion of [int] to
    [float] when one operand is a [float]. *)
Definition py_mul (a b : number) : number :=
  match a, b with
  | NInt x, NInt y => NInt (x * y)
  | _, _ => NFloat (SFmul prec emax (to_float a) (to_float b))
  end.

Definition py_add (a b : number) : number :=
  match a, b with
  | NInt x, NInt y => NInt (x + y)
  | _, _ => NFloat (SFadd prec emax (to_float a) (to_float b))
  end.

Definition py_lt (a b : number) : bool :=
  match a, b with
  | NInt x, NInt y => x <? y
  | _, _ => SFltb (to_float a) (to_float b)
  end.

(** [min(a, b)]: the first argument unless the second is smaller. *)
Definition py_min (a b : number) : number := if py_lt b a then b else a.

(** Truncation of a finite float towards zero. *)
Definition trunc (f : spec_float) : Z :=
  match f with
  | S754_finite s m e =>
      let v := if 0 <=? e then Z.pos m * 2 ^ e else Z.pos m / 2 ^ (- e) in
      if s then - v else v
  | _ => 0
  end.

(** [int(x)]; the interpreter raises on infinities and NaN, which the
    quotients of small counts computed below never are. *)
Definition py_int (n : number) : Z :=
  match n with
  | NInt z => z
  | NFloat f => trunc f
  end.

End Py.
Import Py.

(** Primary keys and timestamps. *)
Definition UUID := N.
Definition datetime := Z.

(** ** [app/models/user.py]: the profile document engine *)

Module Profile.

Record UserProfile := mkUserProfile {
  user_id : UUID;
  personalization_data : option (gmap string Value);
  timezone : string;
  onboarding_screen : option string;
  onboarding_started_at : option datetime;
  created_at : datetime;
  updated_at : option datetime;
  personalized_at : option datetime
}.

Definition _LIST_FIELDS : gset string :=
  {[ "goals"; "challenges"; "practice_preferences"; "interests";
     "reminder_times" ]}.

Definition _BOOL_FIELDS : gset string :=
  {[ "data_consent"; "marketing_consent" ]}.

(** [self.personalization_data or {}] *)
Definition data_or_empty (self : UserProfile) : gmap string Value :=
  match personalization_data self with
  | Some d => d
  | None => ∅
  end.

Definition with_personalization_data
    (self : UserProfile) (data : gmap string Value) : UserProfile :=
  mkUserProfile (user_id self) (Some data) (timezone self)
    (onboarding_screen self) (onboarding_started_at self) (created_at self)
    (updated_at self) (personalized_at self).

(** [_get_personalization_value(key, default)] *)
Definition _get_personalization_value
    (self : UserProfile) (key : string) (default : Value) : Value :=
  match data_or_empty self !! key with
  | Some v => v
  | None => default
  end.

(** [_set_personalization_value(key, value)] *)
Definition _set_personalization_value
    (self : UserProfile) (key : string) (value : Value) : UserProfile :=
  let data := data_or_empty self in
  with_personalization_data self
    match value with
    | VNone => delete key data
    | _ => <[key := value]> data
    end.

(** One iteration of the loop of [update_personalization]. *)
Definition update_entry
    (data : gmap string Value) (kv : string * Value) : gmap string Value :=
  let '(key, value) := kv in
  if decide (key ∈ _LIST_FIELDS) then
    match value with
    | VNone => delete key data
    | VList l | VTuple l | VSet l => <[key := VList l]> data
    | _ => <[key := VList [value]]> data
    end
  else if decide (key ∈ _BOOL_FIELDS) then
    match value with
    | VNone => delete key data
    | _ => <[key := VBool (truthy value)]> data
    end
  else
    match value with
    | VNone => delete key data
    | _ => <[key := value]> data
    end.

(** [update_personalization(updates)]: [updates] is the dictionary's items
    in insertion order. *)
Definition update_personalization
    (self : UserProfile) (updates : list (string * Value)) : UserProfile :=
  if is_nil updates then self
  else with_personalization_data self
         (foldl update_entry (data_or_empty self) updates).

(** [_get_list_field(key)] *)
Definition _get_list_field (self : UserProfile) (key : string) : list Value :=
  match _get_personalization_value self key (VList []) with
  | VList l => l
  | VTuple l | VSet l => l
  | VNone => []
  | v => [v]
  end.

(** [_set_list_field(key, value)] *)
Definition _set_list_field
    (self : UserProfile) (key : string) (value : Value) : UserProfile :=
  match value with
  | VNone => _set_personalization_value self key (VList [])
  | VList l | VTuple l | VSet l => _set_personalization_value self key (VList l)
  | _ => _set_personalization_value self key (VList [value])
  end.

(** [cleaned or None] *)
Definition nonempty_or_none (s : string) : option string :=
  if String.eqb s "" then None else Some s.

(** [_get_string_field(key)] *)
Definition _get_string_field (self : UserProfile) (key : string) : option string :=
  match _get_personalization_value self key VNone with
  | VStr s => nonempty_or_none (strip s)
  | _ => None
  end.


(** [_get_bool_field(key)] *)
Definition _get_bool_field (self : UserProfile) (key : string) : bool :=
  match _get_personalization_value self key VNone with
  | VNone => false
  | v => truthy v
  end.

(** [_set_bool_field(key, value)] *)
Definition _set_bool_field
    (self : UserProfile) (key : string) (value : Value) : UserProfile :=
  match value with
  | VNone => with_personalization_data self (delete key (data_or_empty self))
  | _ => _set_personalization_value self key (VBool (truthy value))
  end.

(** The dynamic properties read by the onboarding status. *)
Definition name (self : UserProfile) := _get_string_field self "name".
Definition age_range (self : UserProfile) := _get_string_field self "age_range".
Definition gender (self : UserProfile) := _get_string_field self "gender".
Definition goals (self : UserProfile) := _get_list_field self "goals".
Definition challenges (self : UserProfile) := _get_list_field self "challenges".
Definition practice_preferences (self : UserProfile) :=
  _get_list_field self "practice_preferences".
Definition interests (self : UserProfile) := _get_list_field self "interests".
Definition reminder_times (self : UserProfile) :=
  _get_list_field self "reminder_times".
Definition experience_level (self : UserProfile) :=
  _get_string_field self "experience_level".
Definition mood_tendency (self : UserProfile) :=
  _get_string_field self "mood_tendency".

End Profile.

(** ** The template catalog *)

Module Catalog.

(** One entry of the [templates] JSON array of a category. The keys that
    the code reads with [dict.get] may be missing from the stored object. *)
Record Template := mkTemplate {
  code : string;
  label : string;
  emoji : option string;
  description : option string;
  display_order : option Z;
  is_active : option bool
}.

(** [t.get("is_active", True)] *)
Definition get_is_active (t : Template) : bool :=
  match is_active t with Some b => b | None => true end.

(** [t.get("display_order", 0)] *)
Definition get_display_order (t : Template) : Z :=
  match display_order t with Some z => z | None => 0 end.

(** [app/models/personalization_templates.py]: a row of the
    [personalization_templates] table. The primary key [id] and the
    [fields] array of form definitions are left out: the handlers below
    find rows by [category], and the view converts [fields] in a loop of
    its own that skips what it cannot parse. *)
Record PersonalizationTemplate := mkPersonalizationTemplate {
  category : string;
  view_order : Z;
  screen_key : option string;
  screen_title : option string;
  screen_subtitle : option string;
  screen_type : option string;
  screen_icon : option string;
  templates : list Template;
  version : Z;
  created_at : datetime;
  updated_at : option datetime
}.

(** [PersonalizationTemplate(category=..., templates=..., version=1)] *)
Definition new_record
    (now : datetime) (c : string) (ts : list Template) : PersonalizationTemplate :=
  mkPersonalizationTemplate c 0 None None None None None ts 1 now None.

(** The assignments
    [record.templates = ts; record.updated_at = utcnow(); record.version += 1]. *)
Definition bump (now : datetime) (ts : list Template)
    (r : PersonalizationTemplate) : PersonalizationTemplate :=
  mkPersonalizationTemplate (category r) (view_order r) (screen_key r)
    (screen_title r) (screen_subtitle r) (screen_type r) (screen_icon r)
    ts (version r + 1) (created_at r) (Some now).

(** *** The session: state and exceptions *)

(** The table, rows in storage order. *)
Definition Session := list PersonalizationTemplate.

Record HTTPException := mkHTTPException {
  status_code : Z;
  detail : string
}.

Inductive outcome (A : Type) : Type :=
| Return (a : A)
| Raise (e : HTTPException).
Arguments Return {A} a.
Arguments Raise {A} e.

Definition handler (A : Type) : Type := Session → outcome A * Session.

Definition ret {A} (a : A) : handler A := λ s, (Return a, s).

Definition raise {A} (e : HTTPException) : handler A := λ s, (Raise e, s).

Definition bind {A B} (m : handler A) (k : A → handler B) : handler B :=
  λ s, match m s with
       | (Return a, s') => k a s'
       | (Raise e, s') => (Raise e, s')
       end.

#[global] Instance handler_ret : MRet handler := @ret.
#[global] Instance handler_bind : MBind handler := λ A B k m, bind m k.

(** [session.exec(select(...).where(category == c)).first()] *)
Fixpoint first_by_category (c : string) (s : Session)
    : option PersonalizationTemplate :=
  match s with
  | [] => None
  | r :: s' => if String.eqb (category r) c then Some r
               else first_by_category c s'
  end.

Definition select_first (c : string) : handler (option PersonalizationTemplate) :=
  λ s, (Return (first_by_category c s), s).

(** Committing the attribute assignments made on the row that
    [select_first] returned. *)
Fixpoint write_back (r : PersonalizationTemplate) (s : Session) : Session :=
  match s with
  | [] => []
  | r0 :: s' => if String.eqb (category r0) (category r) then r :: s'
                else r0 :: write_back r s'
  end.

Definition commit_update (r : PersonalizationTemplate) : handler unit :=
  λ s, (Return tt, write_back r s).

(** [session.add(record); session.commit()] for a new row. *)
Definition commit_add (r : PersonalizationTemplate) : handler unit :=
  λ s, (Return tt, (s ++ [r])%list).

(** *** Stable sorting, as [list.sort(key=...)] and [ORDER BY] do it *)

Section StableSort.
Context {A : Type} (key : A → Z).

Fixpoint insert_by (x : A) (l : list A) : list A :=
  match l with
  | [] => [x]
  | y :: l' => if key x <=? key y then x :: l else y :: insert_by x l'
  end.

Definition sort_by (l : list A) : list A := foldr insert_by [] l.
End StableSort.

(** *** [app/utils/personalization_defaults.py] *)

(** [{"code": c, "label": l, "emoji": e, "display_order": o, "is_active": True}] *)
Definition default_item (c l e : string) (o : Z) : Template :=
  mkTemplate c l (Some e) None (Some o) (Some true).

Definition get_default_templates : gmap string (list Template) :=
  list_to_map [
    ("basic", []);
    ("lifestyle", []);
    ("goals", [
      default_item "reduce_stress" "Reduce stress" "🌿" 1;
      default_item "sleep_better" "Sleep better" "😴" 2;
      default_item "improve_focus" "Improve focus" "🎯" 3;
      default_item "manage_emotions" "Manage emotions" "💞" 4 ]);
    ("challenges", [
      default_item "overthinking" "Overthinking" "🤯" 1;
      default_item "burnout" "Burnout" "🔥" 2;
      default_item "fatigue" "Fatigue" "🥱" 3;
      default_item "insomnia" "Insomnia" "🌙" 4;
      default_item "low_motivation" "Low motivation" "🪫" 5;
      default_item "loneliness" "Loneliness" "🫥" 6;
      default_item "relationship_stress" "Relationship stress" "💔" 7;
      default_item "anxiety" "Anxiety" "😟" 8 ]);
    ("practices", [
      default_item "breathing" "Breathing" "🫁" 1;
      default_item "guided_meditation" "Guided meditation" "🧘" 2;
      default_item "soundscape" "Soundscape" "🌧️" 3;
      default_item "short_reflections" "Short reflections" "📝" 4;
      default_item "mindful_journaling" "Mindful journaling" "📓" 5 ]);
    ("practice_times", [
      default_item "morning" "Morning" "🌅" 1;
      default_item "afternoon" "Afternoon" "🌤️" 2;
      default_item "night" "Night" "🌃" 3 ]);
    ("mood_tendencies", [
      default_item "calm" "Calm" "😌" 1;
      default_item "stressed" "Stressed" "😣" 2;
      default_item "sad" "Sad" "😞" 3;
      default_item "happy" "Happy" "😊" 4 ]);
    ("experience_levels", [
      default_item "beginner" "Beginner" "🌱" 1;
      default_item "intermediate" "Intermediate" "🌿" 2;
      default_item "advanced" "Advanced" "🌳" 3 ]);
    ("interests", [
      default_item "mindfulness" "Mindfulness" "🧠" 1;
      default_item "sleep_science" "Sleep science" "🛌" 2;
      default_item "productivity" "Productivity" "⚡" 3;
      default_item "relationships" "Relationships" "💞" 4;
      default_item "self_compassion" "Self-compassion" "💗" 5 ]);
    ("reminders", [
      default_item "morning" "Morning check-in" "🌞" 1;
      default_item "midday" "Midday break" "🌤️" 2;
      default_item "evening" "Evening reflection" "🌙" 3 ]);
    ("consent", [])
  ].

(** *** [app/utils/profile_validator.py] *)

(** [{t["code"] for t in ts if t.get("is_active", True)}] *)
Definition active_codes (ts : list Template) : gset string :=
  list_to_set (code <$> filter (λ t, get_is_active t = true) ts).

Definition get_template_codes_for_category (c : string) : handler (gset string) :=
  template_record ← select_first c;
  match template_record with
  | Some r => mret (active_codes (templates r))
  | None =>
      (* Fall back to defaults *)
      let defaults := get_default_templates in
      let ts := default [] (defaults !! c) in
      mret (active_codes ts)
  end.

Definition validate_template_codes (c : string) (codes : list string)
    : handler (list string * list string) :=
  if is_nil codes then mret ([], [])
  else
    valid_codes_set ← get_template_codes_for_category c;
    let valid_codes := filter (λ x, x ∈ valid_codes_set) codes in
    let invalid_codes := filter (λ x, x ∉ valid_codes_set) codes in
    mret (valid_codes, invalid_codes).

(** *** [app/utils/template_seeder.py] *)

Definition get_active_templates_for_category (c : string)
    : handler (list Template) :=
  template_record ← select_first c;
  match template_record with
  | None => mret []
  | Some r =>
      let active_templates :=
        filter (λ t, get_is_active t = true) (templates r) in
      mret (sort_by get_display_order active_templates)
  end.

(** *** [app/api/routes/admin_templates.py] *)

(** The request schema [TemplateItem]. *)
Record TemplateItem := mkTemplateItem {
  item_code : string;
  item_label : string;
  item_emoji : option string;
  item_description : option string;
  item_display_order : Z;
  item_is_active : bool
}.

(** [template_item.model_dump()] *)
Definition model_dump (t : TemplateItem) : Template :=
  mkTemplate (item_code t) (item_label t) (item_emoji t) (item_description t)
    (Some (item_display_order t)) (Some (item_is_active t)).

Definition valid_categories : list string :=
  ["goals"; "challenges"; "practices"; "interests"; "reminders"].

Definition HTTP_400_BAD_REQUEST : Z := 400.
Definition HTTP_404_NOT_FOUND : Z := 404.

Definition invalid_category : HTTPException :=
  mkHTTPException HTTP_400_BAD_REQUEST
    ("Invalid category. Must be one of: "
       +:+ String.concat ", " valid_categories).

Definition duplicate_code (c category : string) : HTTPException :=
  mkHTTPException HTTP_400_BAD_REQUEST
    ("Template with code '" +:+ c +:+ "' already exists in category '"
       +:+ category +:+ "'").

Definition category_not_found (category : string) : HTTPException :=
  mkHTTPException HTTP_404_NOT_FOUND
    ("Category '" +:+ category +:+ "' not found").

Definition template_not_found (c category : string) : HTTPException :=
  mkHTTPException HTTP_404_NOT_FOUND
    ("Template with code '" +:+ c +:+ "' not found in category '"
       +:+ category +:+ "'").

(** The guard that opens each admin handler. *)
Definition check_category (c : string) : handler unit :=
  if bool_decide (c ∈ valid_categories) then mret tt
  else raise invalid_category.

Record CategoryTemplates := mkCategoryTemplates {
  ct_category : string;
  ct_templates : list Template;
  ct_version : Z
}.

Definition get_category_templates (c : string) : handler CategoryTemplates :=
  _ ← check_category c;
  template_record ← select_first c;
  match template_record with
  | None => mret (mkCategoryTemplates c [] 0)
  | Some r => mret (mkCategoryTemplates c (templates r) (version r))
  end.

Definition update_category_templates (now : datetime) (c : string)
    (templates_update : list TemplateItem) : handler (string * CategoryTemplates) :=
  _ ← check_category c;
  let templates_list := model_dump <$> templates_update in
  template_record ← select_first c;
  r ← match template_record with
      | Some r =>
          let r' := bump now templates_list r in
          _ ← commit_update r'; mret r'
      | None =>
          let r' := new_record now c templates_list in
          _ ← commit_add r'; mret r'
      end;
  mret ("Templates updated for category: " +:+ c,
        mkCategoryTemplates c (templates r) (version r)).

Definition add_template_to_category (now : datetime) (c : string)
    (template_item : TemplateItem) : handler (string * Template) :=
  _ ← check_category c;
  template_record ← select_first c;
  _ ← match template_record with
      | None =>
          commit_add (new_record now c [model_dump template_item])
      | Some r =>
          let existing_codes : gset string :=
            list_to_set (code <$> templates r) in
          if bool_decide (item_code template_item ∈ existing_codes) then
            raise (duplicate_code (item_code template_item) c)
          else
            let templates_list :=
              (templates r ++ [model_dump template_item])%list in
            commit_update (bump now templates_list r)
      end;
  mret ("Template added to category: " +:+ c, model_dump template_item).

(** The search loop of [delete_template_from_category]: [None] when the
    loop ends with [found] still false. *)
Fixpoint deactivate (template_code : string) (ts : list Template)
    : option (list Template) :=
  match ts with
  | [] => None
  | t :: ts' =>
      if String.eqb (code t) template_code then
        Some (mkTemplate (code t) (label t) (emoji t) (description t)
                (display_order t) (Some false) :: ts')
      else cons t <$> deactivate template_code ts'
  end.

Definition delete_template_from_category (now : datetime) (c : string)
    (template_code : string) : handler string :=
  _ ← check_category c;
  template_record ← select_first c;
  match template_record with
  | None => raise (category_not_found c)
  | Some r =>
      match deactivate template_code (templates r) with
      | None => raise (template_not_found template_code c)
      | Some templates_list =>
          _ ← commit_update (bump now templates_list r);
          mret ("Template '" +:+ template_code
                  +:+ "' deactivated in category '" +:+ c +:+ "'")
      end
  end.

(** *** [app/api/routes/templates.py]: the onboarding view *)

Record TemplateItemResponse := mkTemplateItemResponse {
  resp_code : string;
  resp_label : string;
  resp_emoji : option string;
  resp_description : option string;
  resp_display_order : Z;
  resp_is_active : bool
}.

Record PersonalizationTemplateViewResponse := mkViewResponse {
  view_category : string;
  view_view_order : Z;
  view_screen_key : option string;
  view_screen_title : option string;
  view_screen_subtitle : option string;
  view_screen_type : option string;
  view_screen_icon : option string;
  view_templates : list TemplateItemResponse;
  view_version : Z;
  view_created_at : datetime;
  view_updated_at : option datetime
}.

(** [select(...).where(view_order > 0).order_by(view_order)], [.all()] *)
Definition select_by_view_order : handler (list PersonalizationTemplate) :=
  λ s, (Return (sort_by view_order (filter (λ r, 0 < view_order r) s)), s).

Definition to_item_response (t : Template) : TemplateItemResponse :=
  mkTemplateItemResponse (code t) (label t) (emoji t) (description t)
    (get_display_order t) (get_is_active t).

Definition to_view_response (record : PersonalizationTemplate)
    : PersonalizationTemplateViewResponse :=
  let template_items :=
    to_item_response <$>
      filter (λ t, get_is_active t = true) (templates record) in
  mkViewResponse (category record) (view_order record) (screen_key record)
    (screen_title record) (screen_subtitle record) (screen_type record)
    (screen_icon record) (sort_by resp_display_order template_items)
    (version record) (created_at record) (updated_at record).

Definition get_onboarding_templates_view
    : handler (list PersonalizationTemplateViewResponse) :=
  template_records ← select_by_view_order;
  mret (to_view_response <$> template_records).

End Catalog.

(** ** [app/api/routes/user.py]: the onboarding status *)

Module Onboarding.
Import Profile.

Record OnboardingStatusResponse := mkOnboardingStatusResponse {
  is_completed : bool;
  has_profile : bool;
  personalized_at : option datetime;
  completion_percentage : Z;
  missing_fields : list string;
  current_screen : option string;
  next_screen : option string;
  completed_screens : list string;
  onboarding_started_at : option datetime
}.

Definition ONBOARDING_SCREENS : list string :=
  ["welcome"; "breathe"; "personalize"].

(** [l.index(x)]: [None] stands for [ValueError]. *)
Fixpoint index (x : string) (l : list string) : option nat :=
  match l with
  | [] => None
  | y :: l' => if String.eqb y x then Some O else S <$> index x l'
  end.

(** [if x not in l: l.append(x)] *)
Definition append_if_missing (x : string) (l : list string) : list string :=
  if bool_decide (x ∈ l) then l else (l ++ [x])%list.

(** Truthiness of an [Optional[str]] and of a list. *)
Definition truthy_str (o : option string) : bool :=
  match o with
  | Some s => negb (String.eqb s "")
  | None => false
  end.

Definition truthy_list {A} (l : list A) : bool := negb (is_nil l).

(** The closing loop that puts the completed screens in sequence order. *)
Definition order_completed (completed_screens : list string) : list string :=
  foldl (λ ordered screen,
           if bool_decide (screen ∈ completed_screens)
              && negb (bool_decide (screen ∈ ordered))
           then (ordered ++ [screen])%list else ordered)
        [] ONBOARDING_SCREENS.

(** The block "Determine completed screens based on profile data" and the
    three blocks after it that append the screens the profile has passed. *)
Definition determine_completed_screens (has_profile : bool)
    (stored_screen : option string)
    (has_name has_personalization_data has_personalized_at : bool)
    : list string :=
  let completed_screens :=
    if truthy_str stored_screen then
      if bool_decide (stored_screen = Some "completed") then ONBOARDING_SCREENS
      else match index (default "" stored_screen) ONBOARDING_SCREENS with
           | Some current_index => take current_index ONBOARDING_SCREENS
           | None => []
           end
    else [] in
  let completed_screens :=
    if has_profile then append_if_missing "welcome" completed_screens
    else completed_screens in
  let completed_screens :=
    if has_profile && has_name
    then append_if_missing "breathe" completed_screens
    else completed_screens in
  let completed_screens :=
    if has_personalization_data
    then append_if_missing "personalize" completed_screens
    else completed_screens in
  if has_personalized_at
  then append_if_missing "personalize" completed_screens
  else completed_screens.

(** The block "Determine next screen". *)
Definition determine_next_screen (current_screen : option string)
    : option string :=
  match current_screen with
  | None => None
  | Some cs =>
      if String.eqb cs "completed" then None
      else match index cs ONBOARDING_SCREENS with
           | Some current_index =>
               if bool_decide
                    (current_index < length ONBOARDING_SCREENS - 1)%nat
               then ONBOARDING_SCREENS !! S current_index
               else None
           | None => Some "personalize"
           end
  end.

(** The block "Calculate completion based on multiple factors", given the
    completed screens, the number of required fields and of those missing,
    and the truthiness of each optional field. *)
Definition calculate_completion (completed_screens : list string)
    (required_count missing_count : nat) (optional_fields : list bool) : Z :=
  (* 1. Screens completed (40% weight) *)
  let unique_completed : gset string := list_to_set completed_screens in
  let screens_completion :=
    py_mul (py_truediv
              (Z.of_nat (size (unique_completed ∩ list_to_set ONBOARDING_SCREENS)))
              (Z.of_nat (length ONBOARDING_SCREENS)))
           (NInt 40) in
  (* 2. Required fields filled (60% weight) *)
  let fields_completion :=
    if (required_count =? 0)%nat then NInt 0
    else
      let completed_field_count :=
        Z.of_nat required_count - Z.of_nat missing_count in
      py_mul (py_truediv completed_field_count (Z.of_nat required_count))
             (NInt 60) in
  let completion_percentage :=
    py_int (py_add screens_completion fields_completion) in
  (* Additional optional fields completion (bonus up to 100%) *)
  let filled_optional :=
    Z.of_nat (length (filter (λ v, v = true) optional_fields)) in
  let optional_completion :=
    if is_nil optional_fields then NInt 0
    else py_min (py_mul (py_truediv filled_optional
                           (Z.of_nat (length optional_fields)))
                        (NInt 20))
                (NInt (100 - completion_percentage)) in
  Z.min (py_int (py_add (NInt completion_percentage) optional_completion)) 100.

(** The body of [get_onboarding_status] once a profile was found. *)
Definition status_of_profile (profile : UserProfile) : OnboardingStatusResponse :=
  let has_profile := true in
  let missing_fields : list string := [] in
  let personalized_at := Profile.personalized_at profile in
  let onboarding_started_at := Profile.onboarding_started_at profile in
  let stored_screen :=
    match onboarding_screen profile with
    | Some s => if String.eqb s "sleep" then Some "completed" else Some s
    | None => None
    end in
  let current_screen := stored_screen in
  let has_personalization_data :=
    truthy_list (goals profile) || truthy_list (challenges profile)
    || truthy_list (practice_preferences profile)
    || truthy_list (interests profile)
    || truthy_str (age_range profile) || truthy_str (gender profile) in
  let completed_screens :=
    determine_completed_screens has_profile stored_screen
      (truthy_str (name profile)) has_personalization_data
      (bool_decide (is_Some personalized_at)) in
  (* Determine current screen if not set *)
  let current_screen :=
    if truthy_str current_screen then current_screen
    else if bool_decide (is_Some personalized_at) && is_nil missing_fields
         then Some "completed"
    else if has_personalization_data then Some "personalize"
    else if has_profile then Some "breathe"
    else Some "welcome" in
  let next_screen := determine_next_screen current_screen in
  let required_fields :=
    [("goals", goals profile); ("challenges", challenges profile);
     ("practice_preferences", practice_preferences profile)] in
  (* Check which required fields are missing *)
  let missing_fields :=
    (missing_fields
       ++ (fst <$> filter (λ kv, truthy_list (snd kv) = false) required_fields))%list in
  let optional_fields :=
    [truthy_list (interests profile); truthy_list (reminder_times profile);
     truthy_str (age_range profile); truthy_str (gender profile);
     truthy_str (experience_level profile);
     truthy_str (mood_tendency profile)] in
  let completion_percentage :=
    calculate_completion completed_screens (length required_fields)
      (length missing_fields) optional_fields in
  let is_completed :=
    bool_decide (is_Some personalized_at) && is_nil missing_fields
    && bool_decide ("personalize" ∈ completed_screens) in
  (* If completed, set current_screen to None (no more onboarding) *)
  let current_screen := if is_completed then None else current_screen in
  let next_screen := if is_completed then None else next_screen in
  let completed_screens :=
    if is_completed then ONBOARDING_SCREENS else completed_screens in
  mkOnboardingStatusResponse is_completed has_profile personalized_at
    completion_percentage missing_fields current_screen next_screen
    (order_completed completed_screens) onboarding_started_at.

(** [select(UserProfile).where(user_id == current_user.id)], [.first()] *)
Definition first_by_user_id (uid : UUID) (user_profiles : list UserProfile)
    : option UserProfile :=
  head (filter (λ p, user_id p = uid) user_profiles).

Definition get_onboarding_status
    (user_profiles : list UserProfile) (current_user_id : UUID)
    : OnboardingStatusResponse :=
  match first_by_user_id current_user_id user_profiles with
  | None =>
      (* No profile means onboarding not started - start at welcome *)
      mkOnboardingStatusResponse false false None 0 ["profile"]
        (Some "welcome") (Some "breathe") [] None
  | Some profile => status_of_profile profile
  end.

End Onboarding.

(** ** Vocabulary of the statements and concrete inputs *)

Module Examples.
Import Profile Catalog.

(** A profile whose document holds one goal. *)
Definition profile_with_goal : UserProfile :=
  mkUserProfile 1%N (Some {[ "goals" := VList [VStr "reduce_stress"] ]})
    "UTC" (Some "personalize") None 0 None None.

(** A profile that went through the whole onboarding. *)
Definition profile_completed : UserProfile :=
  mkUserProfile 2%N
    (Some (list_to_map
       [("name", VStr "Ann");
        ("goals", VList [VStr "reduce_stress"]);
        ("challenges", VList [VStr "burnout"; VStr "fatigue"]);
        ("practice_preferences", VList [VStr "breathing"]);
        ("interests", VList [VStr "mindfulness"]);
        ("gender", VStr "female")]))
    "UTC" (Some "completed") (Some 10) 10 (Some 20) (Some 20).

(** The templates a category holds, none when it has no row. *)
Definition stored_templates (c : string) (s : Session) : list Template :=
  match first_by_category c s with
  | Some r => templates r
  | None => []
  end.

(** The active codes of the built-in defaults of a category. *)
Definition default_codes (c : string) : gset string :=
  active_codes (default [] (get_default_templates !! c)).



(** A handler run that returns, rather than raises. *)
Definition succeeds {A} (h : handler A) (s : Session) : Prop :=
  ∃ a s', h s = (Return a, s').

(** The scenario of the active-template listing: items [a], [b] and [c]. *)
Definition item_a : Template :=
  mkTemplate "a" "A" None None (Some 2) (Some true).
Definition item_b : Template :=
  mkTemplate "b" "B" None None (Some 1) (Some false).
Definition item_c : Template :=
  mkTemplate "c" "C" None None (Some 1) (Some true).

Definition goals_row : PersonalizationTemplate :=
  mkPersonalizationTemplate "goals" 3 (Some "goals") None None (Some "multi")
    None [item_a; item_b; item_c] 4 100 (Some 150).

(** A lookup-only category outside the admin-editable ones. *)
Definition mood_row : PersonalizationTemplate :=
  mkPersonalizationTemplate "mood_tendencies" 7 (Some "mood") None None
    (Some "single") None
    [default_item "calm" "Calm" "😌" 1; default_item "sad" "Sad" "😞" 3]
    1 100 None.

Definition basic_row : PersonalizationTemplate :=
  mkPersonalizationTemplate "basic" 1 (Some "basic") None None (Some "form")
    None [] 1 100 None.

Definition hidden_row : PersonalizationTemplate :=
  mkPersonalizationTemplate "archive" 0 None None None None None [] 1 100 None.

Definition example_session : Session :=
  [mood_row; goals_row; hidden_row; basic_row].

Definition new_item (c : string) : TemplateItem :=
  mkTemplateItem c "New" None None 5 true.

End Examples.

(** ** [app/utils/profile_validator.py]: the per-field validators *)

Module Selections.
Import Catalog.



Section Report.
(** [str(invalid)], the interpreter's rendering of a list of strings. *)
Variable repr : list string → string.


End Report.

End Selections.

(** ** [app/utils/template_seeder.py]: seeding the defaults *)

Module Seeder.
Import Catalog.

(** An entry of [SCREEN_METADATA]. *)
Record ScreenMetadata := mkScreenMetadata {
  meta_view_order : Z;
  meta_screen_key : string;
  meta_screen_title : string;
  meta_screen_subtitle : string;
  meta_screen_type : string;
  meta_screen_icon : string
}.

Definition SCREEN_METADATA : gmap string ScreenMetadata :=
  list_to_map [
    ("basic", mkScreenMetadata 1 "basic" "Personalize Your Journey"
       "Tell us a bit about you" "form" "👤");
    ("lifestyle", mkScreenMetadata 2 "lifestyle" "Lifestyle & Routine"
       "This helps us schedule sessions at the right times" "form" "⏰");
    ("goals", mkScreenMetadata 3 "goals" "Personalize Your Journey"
       "What brings you here today?" "multi" "🎯");
    ("challenges", mkScreenMetadata 4 "challenges" "Personalize Your Journey"
       "Which challenges do you face most often?" "multi" "💪");
    ("practices", mkScreenMetadata 5 "practice" "Personalize Your Journey"
       "What type of practice do you enjoy?" "multi" "🧘");
    ("experience_levels", mkScreenMetadata 6 "experience" "Experience Level"
       "We will tailor difficulty and guidance tone" "single" "📚");
    ("mood_tendencies", mkScreenMetadata 7 "mood" "Mood Tendencies"
       "Pick the one that fits you most often" "single" "😊");
    ("practice_times", mkScreenMetadata 8 "time" "Personalize Your Journey"
       "When do you prefer to practice?" "single" "🌅");
    ("reminders", mkScreenMetadata 9 "reminders" "Notifications & Reminders"
       "Choose when you want gentle nudges" "multi" "🔔");
    ("interests", mkScreenMetadata 10 "interests" "Optional Deep Interests"
       "This curates your articles and learning feed" "multi" "📖");
    ("consent", mkScreenMetadata 11 "consent" "Data Privacy & Consent"
       "Your wellness journey, your data" "consent" "🔒")
  ].

(** [get_default_templates().items()]: the dictionary's items in the order
    the literal lists them. *)
Definition default_templates_items : list (string * list Template) :=
  [ ("basic", []);
    ("lifestyle", []);
    ("goals", [
      default_item "reduce_stress" "Reduce stress" "🌿" 1;
      default_item "sleep_better" "Sleep better" "😴" 2;
      default_item "improve_focus" "Improve focus" "🎯" 3;
      default_item "manage_emotions" "Manage emotions" "💞" 4 ]);
    ("challenges", [
      default_item "overthinking" "Overthinking" "🤯" 1;
      default_item "burnout" "Burnout" "🔥" 2;
      default_item "fatigue" "Fatigue" "🥱" 3;
      default_item "insomnia" "Insomnia" "🌙" 4;
      default_item "low_motivation" "Low motivation" "🪫" 5;
      default_item "loneliness" "Loneliness" "🫥" 6;
      default_item "relationship_stress" "Relationship stress" "💔" 7;
      default_item "anxiety" "Anxiety" "😟" 8 ]);
    ("practices", [
      default_item "breathing" "Breathing" "🫁" 1;
      default_item "guided_meditation" "Guided meditation" "🧘" 2;
      default_item "soundscape" "Soundscape" "🌧️" 3;
      default_item "short_reflections" "Short reflections" "📝" 4;
      default_item "mindful_journaling" "Mindful journaling" "📓" 5 ]);
    ("practice_times", [
      default_item "morning" "Morning" "🌅" 1;
      default_item "afternoon" "Afternoon" "🌤️" 2;
      default_item "night" "Night" "🌃" 3 ]);
    ("mood_tendencies", [
      default_item "calm" "Calm" "😌" 1;
      default_item "stressed" "Stressed" "😣" 2;
      default_item "sad" "Sad" "😞" 3;
      default_item "happy" "Happy" "😊" 4 ]);
    ("experience_levels", [
      default_item "beginner" "Beginner" "🌱" 1;
      default_item "intermediate" "Intermediate" "🌿" 2;
      default_item "advanced" "Advanced" "🌳" 3 ]);
    ("interests", [
      default_item "mindfulness" "Mindfulness" "🧠" 1;
      default_item "sleep_science" "Sleep science" "🛌" 2;
      default_item "productivity" "Productivity" "⚡" 3;
      default_item "relationships" "Relationships" "💞" 4;
      default_item "self_compassion" "Self-compassion" "💗" 5 ]);
    ("reminders", [
      default_item "morning" "Morning check-in" "🌞" 1;
      default_item "midday" "Midday break" "🌤️" 2;
      default_item "evening" "Evening reflection" "🌙" 3 ]);
    ("consent", [])
  ].

(** The row of a category with the screen metadata of [SCREEN_METADATA]
    ([metadata.get("view_order", 0)], [metadata.get("screen_key")], ...). *)
Definition with_metadata (c : string) (ts : list Template) (v : Z)
    (created : datetime) (updated : option datetime) : PersonalizationTemplate :=
  let metadata := SCREEN_METADATA !! c in
  mkPersonalizationTemplate c
    (from_option meta_view_order 0 metadata)
    (meta_screen_key <$> metadata)
    (meta_screen_title <$> metadata)
    (meta_screen_subtitle <$> metadata)
    (meta_screen_type <$> metadata)
    (meta_screen_icon <$> metadata)
    ts v created updated.

(** One iteration of the loop of [seed_templates]; [now c] is the clock
    reading taken while the category [c] is handled. *)
Definition seed_category (now : string → datetime) (overwrite : bool)
    (s : Session) (entry : string * list Template) : Session :=
  let '(c, ts) := entry in
  match first_by_category c s with
  | Some existing =>
      if overwrite then
        write_back
          (with_metadata c ts (version existing + 1)
             (created_at existing) (Some (now c)))
          s
      else s
  | None => (s ++ [with_metadata c ts 1 (now c) None])%list
  end.

(** [seed_templates(session, overwrite, clear_existing)] *)
Definition seed_templates (now : string → datetime)
    (overwrite clear_existing : bool) : handler string :=
  λ s,
    let s := if clear_existing then [] else s in
    (Return "Templates seeded successfully",
     foldl (seed_category now overwrite) s default_templates_items).

(** [reset_templates_to_defaults(session)] *)
Definition reset_templates_to_defaults (now : string → datetime)
    : handler string :=
  seed_templates now true false.

End Seeder.

(** ** [app/api/routes/user.py]: saving the profile *)

Module SaveProfile.
Import Profile Catalog.

(** The outcome of the handler: its answer, an [HTTPException], or a
    [TypeError] that escapes it. *)
Inductive result (A : Type) : Type :=
| Ok (a : A)
| HTTPError (e : HTTPException)
| TypeError.
Arguments Ok {A} a.
Arguments HTTPError {A} e.
Arguments TypeError {A}.

(** *** Dictionaries as their items, in insertion order *)

Fixpoint dict_get (k : string) (d : list (string * Value)) : option Value :=
  match d with
  | [] => None
  | (k', v) :: d' => if String.eqb k' k then Some v else dict_get k d'
  end.

(** [d[k] = v]: an existing key keeps its place, a new one goes last. *)
Fixpoint dict_set (k : string) (v : Value) (d : list (string * Value))
    : list (string * Value) :=
  match d with
  | [] => [(k, v)]
  | (k', v') :: d' =>
      if String.eqb k' k then (k, v) :: d' else (k', v') :: dict_set k v d'
  end.

(** [dict(items)] *)
Definition dict_of_items (items : list (string * Value))
    : list (string * Value) :=
  foldl (λ d kv, dict_set kv.1 kv.2 d) [] items.

(** *** The request *)

(** [profile_data.model_dump(exclude_unset=True)], as the schema
    [UserProfileUpdate] types it: [personalization_data] is a dictionary
    or [None], [onboarding_screen] and [timezone] are strings or [None],
    and [fields] holds the other fields that the client set, in the order
    of the schema. The outer [option] is [None] for a field that the
    client did not set. *)
Record UserProfileUpdate := mkUserProfileUpdate {
  req_personalization_data : option (option (list (string * Value)));
  req_fields : list (string * Value);
  req_onboarding_screen : option (option string);
  req_timezone : option (option string)
}.

Definition PERSONALIZATION_LIST_FIELDS : list string :=
  ["goals"; "challenges"; "practice_preferences"; "interests";
   "reminder_times"].

(** The dictionary [personalization_updates] after the flattening loop:
    the nested dictionary, then the fields set at the top level, which
    win over nested keys of the same name. *)
Definition flatten (profile_data : UserProfileUpdate) : list (string * Value) :=
  let nested :=
    match req_personalization_data profile_data with
    | Some (Some d) => dict_of_items d
    | _ => []
    end in
  foldl (λ d kv, dict_set kv.1 kv.2 d) nested (req_fields profile_data).

(** The loop over [PERSONALIZATION_LIST_FIELDS]: a value other than
    [None] becomes a list. *)
Definition normalize_list_fields (updates : list (string * Value))
    : list (string * Value) :=
  foldl (λ d field,
           match dict_get field d with
           | Some VNone | None => d
           | Some (VTuple l) | Some (VSet l) => dict_set field (VList l) d
           | Some (VList l) => d
           | Some v => dict_set field (VList [v]) d
           end)
        updates PERSONALIZATION_LIST_FIELDS.

(** *** Validation of the submitted values *)

(** Whether [hash(v)] succeeds. *)
Fixpoint hashable (v : Value) : bool :=
  match v with
  | VNone | VBool _ | VInt _ | VStr _ => true
  | VTuple l => forallb hashable l
  | VList _ | VSet _ | VDict _ => false
  end.

(** [v in valid_codes_set], for a set of strings: [None] stands for the
    [TypeError] of an unhashable value. *)
Definition in_codes (valid_codes_set : gset string) (v : Value) : option bool :=
  if hashable v then
    Some match v with
         | VStr code => bool_decide (code ∈ valid_codes_set)
         | _ => false
         end
  else None.

(** [[code for code in codes if code in valid_codes_set]] *)
Fixpoint comprehension (valid_codes_set : gset string) (keep : bool)
    (codes : list Value) : option (list Value) :=
  match codes with
  | [] => Some []
  | v :: codes' =>
      match in_codes valid_codes_set v with
      | None => None
      | Some b =>
          match comprehension valid_codes_set keep codes' with
          | None => None
          | Some l => Some (if eqb b keep then v :: l else l)
          end
      end
  end.

(** [validate_template_codes] on the values of a request. *)
Definition validate_values (c : string) (codes : list Value) (s : Session)
    : result (list Value * list Value) :=
  if is_nil codes then Ok ([], [])
  else
    match (get_template_codes_for_category c s).1 with
    | Raise e => HTTPError e
    | Return valid_codes_set =>
        match comprehension valid_codes_set true codes,
              comprehension valid_codes_set false codes with
        | Some valid_codes, Some invalid_codes =>
            Ok (valid_codes, invalid_codes)
        | _, _ => TypeError
        end
    end.

(** [value or []], for a value that is a list or [None]. *)
Definition or_empty (v : Value) : list Value :=
  match v with
  | VList l => l
  | _ => []
  end.

(** One of the five blocks that replace a submitted selection by its
    valid codes. *)
Definition filter_selection (s : Session) (field c : string)
    (updates : result (list (string * Value)))
    : result (list (string * Value)) :=
  match updates with
  | Ok d =>
      match dict_get field d with
      | None => Ok d
      | Some v =>
          match validate_values c (or_empty v) s with
          | Ok (valid, _) => Ok (dict_set field (VList valid) d)
          | HTTPError e => HTTPError e
          | TypeError => TypeError
          end
      end
  | r => r
  end.

Definition filter_selections (s : Session) (updates : list (string * Value))
    : result (list (string * Value)) :=
  filter_selection s "reminder_times" "reminders"
    (filter_selection s "interests" "interests"
       (filter_selection s "practice_preferences" "practices"
          (filter_selection s "challenges" "challenges"
             (filter_selection s "goals" "goals" (Ok updates))))).

(** *** The profile rows *)

Fixpoint write_back_profile (p : UserProfile) (user_profiles : list UserProfile)
    : list UserProfile :=
  match user_profiles with
  | [] => []
  | q :: l => if decide (user_id q = user_id p) then p :: l
              else q :: write_back_profile p l
  end.

Definition profile_not_found : HTTPException :=
  mkHTTPException HTTP_404_NOT_FOUND
    "User profile not found. Use POST to create one.".

(** The attribute assignments of the handler, after the bulk update. *)
Definition assign_metadata (now_personalized now_updated : datetime)
    (onboarding_screen timezone_value : option string)
    (profile : UserProfile) : UserProfile :=
  let screen :=
    match onboarding_screen with
    | Some sc => Some sc
    | None => Profile.onboarding_screen profile
    end in
  let tz :=
    match timezone_value with
    | Some t => if String.eqb t "" then timezone profile else t
    | None => timezone profile
    end in
  let has_required_fields :=
    negb (is_nil (goals profile)) && negb (is_nil (challenges profile))
    && negb (is_nil (practice_preferences profile)) in
  let personalized :=
    if bool_decide (onboarding_screen = Some "completed")
       && negb (bool_decide (is_Some (personalized_at profile)))
    then if has_required_fields then Some now_personalized
         else personalized_at profile
    else personalized_at profile in
  mkUserProfile (user_id profile) (personalization_data profile) tz screen
    (onboarding_started_at profile) (Profile.created_at profile)
    (Some now_updated) personalized.

(** [update_my_user_profile]: [PUT /users/me/profile]. The two clock
    readings are those of [personalized_at] and of [updated_at]. *)
Definition update_my_user_profile (now_personalized now_updated : datetime)
    (catalog : Session) (current_user_id : UUID)
    (profile_data : UserProfileUpdate) (user_profiles : list UserProfile)
    : result UserProfile * list UserProfile :=
  let personalization_updates := flatten profile_data in
  let personalization_updates := normalize_list_fields personalization_updates in
  match filter_selections catalog personalization_updates with
  | TypeError => (TypeError, user_profiles)
  | HTTPError e => (HTTPError e, user_profiles)
  | Ok personalization_updates =>
      match Onboarding.first_by_user_id current_user_id user_profiles with
      | None => (HTTPError profile_not_found, user_profiles)
      | Some profile =>
          let onboarding_screen :=
            match req_onboarding_screen profile_data with
            | Some (Some sc) =>
                if String.eqb sc "sleep" then Some "completed" else Some sc
            | _ => None
            end in
          let timezone_value :=
            match req_timezone profile_data with
            | Some tz => tz
            | None => None
            end in
          let profile := update_personalization profile personalization_updates in
          let profile :=
            assign_metadata now_personalized now_updated onboarding_screen
              timezone_value profile in
          (Ok profile, write_back_profile profile user_profiles)
      end
  end.

End SaveProfile.

(** ** Vocabulary of the further statements *)

Module Normal.
Import Profile.

(** [list(value)] as [_set_list_field] and the bulk update normalise it. *)
Definition as_list (value : Value) : list Value :=
  match value with
  | VNone => []
  | VList l | VTuple l | VSet l => l
  | v => [v]
  end.

(** A document in normal form: no key is bound to [None], the reserved
    list keys are bound to lists and the reserved boolean keys to
    booleans. *)
Definition normal_at (k : string) (v : Value) : Prop :=
  v ≠ VNone
  ∧ (k ∈ _LIST_FIELDS → ∃ l, v = VList l)
  ∧ (k ∈ _BOOL_FIELDS → ∃ b, v = VBool b).

Definition normalized (data : gmap string Value) : Prop :=
  ∀ k v, data !! k = Some v → normal_at k v.



(** The codes of a selection that the validator of category [c] rejects;
    none for a selection that is missing. *)
Definition invalid_of (s : Catalog.Session) (c : string)
    (codes : option (list string)) : list string :=
  match (Catalog.validate_template_codes c (default [] codes) s).1 with
  | Catalog.Return (_, invalid) => invalid
  | Catalog.Raise _ => []
  end.

(** The row that seeding leaves for a default category [c] with default
    templates [ts], given the row found for it before, if any. *)
Definition seeded_row (now : string → datetime) (overwrite : bool)
    (c : string) (ts : list Catalog.Template)
    (existing : option Catalog.PersonalizationTemplate)
    : Catalog.PersonalizationTemplate :=
  match existing with
  | Some r =>
      if overwrite then
        Seeder.with_metadata c ts (Catalog.version r + 1)
          (Catalog.created_at r) (Some (now c))
      else r
  | None => Seeder.with_metadata c ts 1 (now c) None
  end.

(** The table holds at most one row per category, as the unique index on
    the column demands. *)
Definition unique_categories (s : Catalog.Session) : Prop :=
  NoDup (Catalog.category <$> s).

(** Every row holds each template code at most once. *)
Definition unique_codes (s : Catalog.Session) : Prop :=
  ∀ c r, Catalog.first_by_category c s = Some r →
         NoDup (Catalog.code <$> Catalog.templates r).

(** The five selections of a request and the category each is checked
    against. *)
Definition selection_categories : list (string * string) :=
  [("goals", "goals"); ("challenges", "challenges");
   ("practice_preferences", "practices"); ("interests", "interests");
   ("reminder_times", "reminders")].

(** What the loop over the list fields turns a submitted value into. *)
Definition normalize_value (v : Value) : Value :=
  match v with
  | VNone => VNone
  | VList l | VTuple l | VSet l => VList l
  | v => VList [v]
  end.

(** The screen marker that a request asks to store, the legacy marker
    read as "completed". *)
Definition requested_screen (profile_data : SaveProfile.UserProfileUpdate)
    : option string :=
  match SaveProfile.req_onboarding_screen profile_data with
  | Some (Some sc) =>
      if String.eqb sc "sleep" then Some "completed" else Some sc
  | _ => None
  end.

(** The personalization keys that a request mentions, nested or at the
    top level. *)
Definition request_keys (profile_data : SaveProfile.UserProfileUpdate)
    : list string :=
  (match SaveProfile.req_personalization_data profile_data with
   | Some (Some d) => d.*1
   | _ => []
   end ++ (SaveProfile.req_fields profile_data).*1)%list.

(** A submitted value that is a string among the valid codes. *)
Definition is_valid_code (valid_codes_set : gset string) (v : Value) : bool :=
  match v with
  | VStr code => bool_decide (code ∈ valid_codes_set)
  | _ => false
  end.





(** Two clocks for the seeding runs of the examples. *)
Definition clock_a (c : string) : datetime := 300.
Definition clock_b (c : string) : datetime := 400.

End Normal.

(** * Properties *)

(** ** The profile document engine *)

Module ProfileFacts.
Import Profile Examples.

(** An entry for another key leaves the binding of [k] alone. *)
Lemma update_entry_other (data : gmap string Value) (kv : string * Value) (k : string) :
  kv.1 ≠ k → update_entry data kv !! k = data !! k.
Proof.
  destruct kv as [key value]; simpl; intros Hne.
  unfold update_entry.
  repeat case_decide; destruct value;
    rewrite ?lookup_delete_ne, ?lookup_insert_ne; done.
Qed.

(** What an entry for [k] binds [k] to does not depend on the document. *)
Lemma update_entry_self (d1 d2 : gmap string Value) (k : string) (v : Value) :
  update_entry d1 (k, v) !! k = update_entry d2 (k, v) !! k.
Proof.
  unfold update_entry.
  repeat case_decide; destruct v;
    rewrite ?lookup_delete_eq, ?lookup_insert_eq; done.
Qed.

Lemma foldl_update_entry_other (updates : list (string * Value)) :
  ∀ (data : gmap string Value) (k : string),
    k ∉ updates.*1 → foldl update_entry data updates !! k = data !! k.
Proof.
  induction updates as [|kv updates IH]; intros data k Hk; [done|].
  rewrite fmap_cons, not_elem_of_cons in Hk. destruct Hk as [Hne Hk].
  simpl. rewrite IH by done. by apply update_entry_other.
Qed.


Lemma update_personalization_data (self : UserProfile) (updates : list (string * Value)) :
  updates ≠ [] →
  data_or_empty (update_personalization self updates)
  = foldl update_entry (data_or_empty self) updates.
Proof. by destruct updates. Qed.




(** C9: the bulk update changes only the keys of its mapping. Every other
    key of the document keeps its binding, and a key that is neither in the
    document nor in the mapping stays absent. *)
Theorem update_personalization_frame
    (self : UserProfile) (updates : list (string * Value)) (k : string) :
  k ∉ updates.*1 →
  data_or_empty (update_personalization self updates) !! k
  = data_or_empty self !! k.
Proof.
  intros Hk. destruct updates as [|kv updates]; [done|].
  rewrite update_personalization_data by done.
  by apply foldl_update_entry_other.
Qed.

Lemma update_personalization_frame_witness :
  ("goals" ∉ [("name", VStr "Ann"); ("interests", VNone)].*1)
  ∧ data_or_empty
      (update_personalization profile_with_goal
         [("name", VStr "Ann"); ("interests", VNone)]) !! "goals"
    = data_or_empty profile_with_goal !! "goals".
Proof.
  assert (H : "goals" ∉ [("name", VStr "Ann"); ("interests", VNone)].*1)
    by (apply (bool_decide_unpack _); vm_compute; exact I).
  split; [exact H|].
  exact (update_personalization_frame profile_with_goal _ _ H).
Defined.

End ProfileFacts.

(** ** Stable sorting *)

Module SortFacts.
Import Catalog.

Section StableSort.
Context {A : Type} (key : A → Z).

Lemma insert_by_perm (x : A) (l : list A) : insert_by key x l ≡ₚ x :: l.
Proof.
  induction l as [|y l IH]; simpl; [done|].
  destruct (key x <=? key y); [done|].
  rewrite IH. apply Permutation_swap.
Qed.

Lemma sort_by_perm (l : list A) : sort_by key l ≡ₚ l.
Proof.
  induction l as [|x l IH]; simpl; [done|].
  fold (sort_by key l). by rewrite insert_by_perm, IH.
Qed.

Lemma insert_by_sorted (x : A) (l : list A) :
  StronglySorted (λ a b, key a ≤ key b) l →
  StronglySorted (λ a b, key a ≤ key b) (insert_by key x l).
Proof.
  induction 1 as [|y l Hs IH Hall]; simpl.
  - by repeat constructor.
  - destruct (Z.leb_spec (key x) (key y)) as [Hle|Hlt].
    + constructor; [by constructor|].
      constructor; [done|].
      eapply Forall_impl; [exact Hall|].
      simpl; intros; lia.
    + constructor; [done|].
      rewrite insert_by_perm. constructor; [lia | done].
Qed.

Lemma sort_by_sorted_le (l : list A) :
  StronglySorted (λ a b, key a ≤ key b) (sort_by key l).
Proof.
  induction l as [|x l IH]; simpl; [constructor|].
  by apply insert_by_sorted.
Qed.

(** Stability: elements with the same key keep their relative order. *)
Lemma insert_by_stable (k : Z) (x : A) (l : list A) :
  filter (λ a, key a = k) (insert_by key x l)
  = filter (λ a, key a = k) (x :: l).
Proof.
  induction l as [|y l IH]; simpl; [done|].
  destruct (Z.leb_spec (key x) (key y)) as [Hle|Hlt]; [done|].
  rewrite (filter_cons _ y (insert_by key x l)), IH.
  rewrite !filter_cons.
  repeat case_decide; try done; lia.
Qed.

Lemma sort_by_stable (k : Z) (l : list A) :
  filter (λ a, key a = k) (sort_by key l) = filter (λ a, key a = k) l.
Proof.
  induction l as [|x l IH]; simpl; [done|].
  fold (sort_by key l).
  by rewrite insert_by_stable, !filter_cons, IH.
Qed.

End StableSort.

End SortFacts.

(** ** The catalog: store, validator, listing and admin handlers *)

Module CatalogFacts.
Import Catalog Examples SortFacts.

(** Unfolds the monad, so that running a handler on a table computes. *)
Ltac run_handler :=
  unfold mbind, handler_bind, bind, mret, handler_ret, ret, raise,
    select_first, commit_update, commit_add, check_category in *.

(** *** Filters that keep nothing or everything *)



(** *** The store *)

Lemma first_by_category_category (c : string) (s : Session) (r : PersonalizationTemplate) :
  first_by_category c s = Some r → category r = c.
Proof.
  induction s as [|r0 s IH]; simpl; [done|].
  destruct (String.eqb_spec (category r0) c) as [Heq|Hne]; [|done].
  by intros [= <-].
Qed.

(** The row written back is the one the next lookup finds. *)
Lemma first_by_category_write_back (c : string) (s : Session) (r0 r : PersonalizationTemplate) :
  first_by_category c s = Some r0 → category r = c →
  first_by_category c (write_back r s) = Some r.
Proof.
  intros Hfind Hc. induction s as [|r1 s IH]; simpl in *; [done|].
  rewrite Hc.
  destruct (String.eqb_spec (category r1) c) as [Heq|Hne]; simpl.
  - by rewrite Hc, String.eqb_refl.
  - apply String.eqb_neq in Hne. rewrite Hne. by apply IH.
Qed.

(** A row added for a category without one is found under that category. *)
Lemma first_by_category_add (c : string) (s : Session) (r : PersonalizationTemplate) :
  first_by_category c s = None → category r = c →
  first_by_category c (s ++ [r])%list = Some r.
Proof.
  intros Hfind Hc. induction s as [|r1 s IH]; simpl in *.
  - by rewrite Hc, String.eqb_refl.
  - destruct (category r1 =? c)%string; [done|]. by apply IH.
Qed.

Lemma category_bump (now : datetime) (ts : list Template) (r : PersonalizationTemplate) :
  category (bump now ts r) = category r.
Proof. done. Qed.

(** *** The validator *)

(** The validator reads the table, returns and never raises. *)
Lemma validate_template_codes_run (c : string) (codes : list string) (s : Session) :
  validate_template_codes c codes s
  = (Return
       (if is_nil codes then ([], [])
        else
          let valid_codes_set :=
            match first_by_category c s with
            | Some r => active_codes (templates r)
            | None => default_codes c
            end in
          (filter (λ x, x ∈ valid_codes_set) codes,
           filter (λ x, x ∉ valid_codes_set) codes)),
     s).
Proof.
  unfold validate_template_codes, get_template_codes_for_category.
  destruct codes as [|x codes]; [done|]. simpl. run_handler.
  by destruct (first_by_category c s).
Qed.




(** C4: the two lists the validator returns partition the candidates.
    Together they are a permutation of the candidate list, every candidate
    is in exactly one of them, and each is a subsequence of the candidate
    list, so keeps the input order. *)
Theorem validate_template_codes_partition (c : string) (codes : list string) (s : Session) :
  ∃ valid_codes invalid_codes,
    validate_template_codes c codes s
    = (Return (valid_codes, invalid_codes), s)
    ∧ (valid_codes ++ invalid_codes)%list ≡ₚ codes
    ∧ (∀ x, x ∈ codes →
         (x ∈ valid_codes ∧ (x ∉ invalid_codes))
         ∨ ((x ∉ valid_codes) ∧ x ∈ invalid_codes))
    ∧ valid_codes `sublist_of` codes
    ∧ invalid_codes `sublist_of` codes.
Proof.
  rewrite validate_template_codes_run.
  destruct codes as [|x0 codes].
  { exists [], []. simpl. repeat split; try done. intros x Hx.
    by apply elem_of_nil in Hx. }
  simpl is_nil. cbv iota zeta.
  set (valid_codes_set :=
         match first_by_category c s with
         | Some r => active_codes (templates r)
         | None => default_codes c
         end).
  set (l := x0 :: codes).
  exists (filter (λ x, x ∈ valid_codes_set) l),
         (filter (λ x, x ∉ valid_codes_set) l).
  split; [done|]. split; [apply filter_app_complement|].
  split; [|split; apply sublist_filter].
  intros x Hx. rewrite !list_elem_of_filter.
  destruct (decide (x ∈ valid_codes_set)); [left|right]; tauto.
Qed.

(** *** The active-template listing and the onboarding view *)

Lemma view_order_to_view_response (r : PersonalizationTemplate) :
  view_view_order (to_view_response r) = view_order r.
Proof. done. Qed.

(** C3: the active-template listing returns the active items of the
    category, and only those, in ascending [display_order] with ties in
    stored order; the onboarding view emits exactly the categories whose
    [view_order] is positive, in ascending [view_order]; and the listing of
    the scenario with items a (active, 2), b (inactive, 1), c (active, 1)
    is [c; a]. *)
Theorem active_listing_and_screen_order (c : string) (s : Session) :
  (∃ l, get_active_templates_for_category c s = (Return l, s)
        ∧ l ≡ₚ filter (λ t, get_is_active t = true) (stored_templates c s)
        ∧ Forall (λ t, get_is_active t = true) l
        ∧ StronglySorted (λ a b, get_display_order a ≤ get_display_order b) l
        ∧ ∀ o, filter (λ t, get_display_order t = o) l
               = filter (λ t, get_display_order t = o)
                   (filter (λ t, get_is_active t = true)
                      (stored_templates c s)))
  ∧ (∃ vs, get_onboarding_templates_view s = (Return vs, s)
           ∧ vs ≡ₚ to_view_response <$> filter (λ r, 0 < view_order r) s
           ∧ view_category <$> vs
             ≡ₚ category <$> filter (λ r, 0 < view_order r) s
           ∧ StronglySorted
               (λ a b, view_view_order a ≤ view_view_order b) vs)
  ∧ get_active_templates_for_category "goals" example_session
    = (Return [item_c; item_a], example_session).
Proof.
  split; [|split; [|reflexivity]].
  - unfold get_active_templates_for_category, stored_templates. run_handler.
    destruct (first_by_category c s) as [r|].
    + eexists; split; [reflexivity|].
      split; [apply sort_by_perm|].
      split; [|split; [apply (sort_by_sorted_le get_display_order)
                      | intros o; apply (sort_by_stable get_display_order)]].
      rewrite sort_by_perm. apply Forall_forall. intros t Ht.
      by apply list_elem_of_filter in Ht as [? _].
    + exists []. repeat split; try done; constructor.
  - unfold get_onboarding_templates_view, select_by_view_order. run_handler.
    eexists; split; [reflexivity|].
    assert (Hperm : to_view_response
                      <$> sort_by view_order (filter (λ r, 0 < view_order r) s)
                    ≡ₚ to_view_response <$> filter (λ r, 0 < view_order r) s)
      by (by rewrite sort_by_perm).
    split; [exact Hperm|]. split.
    + rewrite Hperm, <- list_fmap_compose. done.
    + apply (StronglySorted_fmap _ (λ a b, view_order a ≤ view_order b)
               (λ a b, view_view_order a ≤ view_view_order b)).
      * intros a b Hab. by rewrite !view_order_to_view_response.
      * apply sort_by_sorted_le.
Qed.

(** *** The admin handlers *)

Lemma check_category_valid (c : string) (s : Session) :
  c ∈ valid_categories → check_category c s = (Return tt, s).
Proof.
  intros Hc. unfold check_category.
  by rewrite bool_decide_eq_true_2.
Qed.

Lemma check_category_invalid (c : string) (s : Session) :
  c ∉ valid_categories → check_category c s = (Raise invalid_category, s).
Proof.
  intros Hc. unfold check_category.
  by rewrite bool_decide_eq_false_2.
Qed.

(** The search loop finds a template exactly when its code is stored. *)
Lemma deactivate_is_Some (tc : string) (ts : list Template) :
  is_Some (deactivate tc ts) ↔ tc ∈ code <$> ts.
Proof.
  induction ts as [|t ts IH]; csimpl.
  - split; [by intros [? ?] | by intros ?%elem_of_nil].
  - rewrite elem_of_cons.
    destruct (String.eqb_spec (code t) tc) as [Heq|Hne].
    + split; [by left | by eexists].
    + rewrite fmap_is_Some, IH. split; [by right|].
      intros [Heq|Hin]; [by subst | done].
Qed.


Lemma add_template_to_category_run (now : datetime) (c : string)
    (item : TemplateItem) (s : Session) (r : PersonalizationTemplate) :
  c ∈ valid_categories → first_by_category c s = Some r →
  add_template_to_category now c item s
  = if bool_decide (item_code item ∈ code <$> templates r)
    then (Raise (duplicate_code (item_code item) c), s)
    else (Return ("Template added to category: " +:+ c, model_dump item),
          write_back
            (bump now (templates r ++ [model_dump item])%list r) s).
Proof.
  intros Hc Hr. unfold add_template_to_category.
  unfold mbind at 1, handler_bind, bind. rewrite check_category_valid by done.
  run_handler. rewrite Hr.
  rewrite (bool_decide_ext _ (item_code item ∈ code <$> templates r))
    by apply elem_of_list_to_set.
  by case_bool_decide.
Qed.


(** A handler stopped by the category guard leaves the table alone. *)
Lemma add_template_to_category_guard (now : datetime) (c : string)
    (item : TemplateItem) (s : Session) :
  c ∉ valid_categories →
  add_template_to_category now c item s = (Raise invalid_category, s).
Proof.
  intros Hc. unfold add_template_to_category.
  unfold mbind at 1, handler_bind, bind.
  by rewrite check_category_invalid.
Qed.


(** C5, as stated, fails: adding the stored code "calm" to the category
    "mood_tendencies", which is not admin-editable, is rejected by the
    category guard, not with the duplicate-code error. *)
Lemma add_existing_code_counterexample :
  first_by_category "mood_tendencies" example_session = Some mood_row
  ∧ "calm" ∈ code <$> templates mood_row
  ∧ add_template_to_category 200 "mood_tendencies" (new_item "calm")
      example_session
    = (Raise invalid_category, example_session)
  ∧ invalid_category ≠ duplicate_code "calm" "mood_tendencies".
Proof.
  split; [reflexivity|]. split; [apply list_elem_of_here|].
  split; [reflexivity|]. by vm_compute.
Qed.

(** C5, amended: for every category whose templates list already contains
    an item with code [c], active or not, adding an item with code [c]
    fails with a 400 error and leaves the table, hence the version,
    [updated_at] and templates of the category row, unchanged; the error is
    the duplicate-code one when the category is one of the admin-editable
    five, and the invalid-category one of the guard otherwise. *)
Theorem add_existing_code_rejected (now : datetime) (c : string)
    (item : TemplateItem) (s : Session) (r : PersonalizationTemplate) :
  first_by_category c s = Some r →
  item_code item ∈ code <$> templates r →
  ∃ e s', add_template_to_category now c item s = (Raise e, s')
          ∧ status_code e = HTTP_400_BAD_REQUEST
          ∧ e = (if bool_decide (c ∈ valid_categories)
                 then duplicate_code (item_code item) c
                 else invalid_category)
          ∧ s' = s
          ∧ first_by_category c s' = Some r.
Proof.
  intros Hr Hdup. case_bool_decide as Hc.
  - rewrite (add_template_to_category_run now c item s r) by done.
    rewrite bool_decide_eq_true_2 by done.
    by eexists _, _.
  - rewrite add_template_to_category_guard by done.
    by eexists _, _.
Qed.

Lemma add_existing_code_rejected_witness :
  (first_by_category "goals" example_session = Some goals_row
   ∧ item_code (new_item "b") ∈ code <$> templates goals_row)
  ∧ ∃ e s', add_template_to_category 200 "goals" (new_item "b")
              example_session = (Raise e, s')
            ∧ status_code e = HTTP_400_BAD_REQUEST
            ∧ e = (if bool_decide ("goals" ∈ valid_categories)
                   then duplicate_code (item_code (new_item "b")) "goals"
                   else invalid_category)
            ∧ s' = example_session
            ∧ first_by_category "goals" s' = Some goals_row.
Proof.
  assert (H1 : first_by_category "goals" example_session = Some goals_row)
    by reflexivity.
  assert (H2 : item_code (new_item "b") ∈ code <$> templates goals_row)
    by (apply (bool_decide_unpack _); vm_compute; exact I).
  split; [by split|].
  exact (add_existing_code_rejected 200 "goals" (new_item "b")
           example_session goals_row H1 H2).
Defined.






End CatalogFacts.

(** ** The onboarding status *)

Module OnboardingFacts.
Import Profile Onboarding Examples.

Lemma first_by_user_id_None (uid : UUID) (user_profiles : list UserProfile) :
  (∀ p, p ∈ user_profiles → user_id p ≠ uid) →
  first_by_user_id uid user_profiles = None.
Proof.
  intros Hnone. unfold first_by_user_id.
  induction user_profiles as [|p l IH]; [done|].
  rewrite filter_cons_False by (apply Hnone, list_elem_of_here).
  apply IH. intros q Hq. by apply Hnone, list_elem_of_further.
Qed.

(** C8: for a user without a profile row, the status is the fixed
    not-started answer, and computing it raises nothing. *)
Theorem no_profile_status (user_profiles : list UserProfile) (uid : UUID) :
  (∀ p, p ∈ user_profiles → user_id p ≠ uid) →
  get_onboarding_status user_profiles uid
  = {| is_completed := false;
       has_profile := false;
       personalized_at := None;
       completion_percentage := 0;
       missing_fields := ["profile"];
       current_screen := Some "welcome";
       next_screen := Some "breathe";
       completed_screens := [];
       onboarding_started_at := None |}.
Proof.
  intros Hnone. unfold get_onboarding_status.
  by rewrite first_by_user_id_None.
Qed.

(** With the marker "completed" every screen counts as completed. *)
Lemma determine_completed_screens_completed (b1 b2 b3 : bool) :
  determine_completed_screens true (Some "completed") b1 b2 b3
  = ONBOARDING_SCREENS.
Proof. by destruct b1, b2, b3. Qed.

(** All screens and all required fields give 100, whatever the optional
    fields add: the bonus is capped by what is left to 100. *)
Lemma calculate_completion_full (b1 b2 b3 b4 b5 b6 : bool) :
  calculate_completion ONBOARDING_SCREENS 3 0 [b1; b2; b3; b4; b5; b6] = 100.
Proof. by destruct b1, b2, b3, b4, b5, b6; vm_compute. Qed.

(** C7: a profile with [personalized_at] set, its three required list
    fields non-empty and the stored marker "completed" has a completed
    status: no current and no next screen, the whole screen sequence
    completed, and a completion percentage of 100. *)
Theorem completed_profile_status (user_profiles : list UserProfile)
    (uid : UUID) (profile : UserProfile) (t : datetime) :
  first_by_user_id uid user_profiles = Some profile →
  Profile.personalized_at profile = Some t →
  goals profile ≠ [] →
  challenges profile ≠ [] →
  practice_preferences profile ≠ [] →
  onboarding_screen profile = Some "completed" →
  get_onboarding_status user_profiles uid
  = {| is_completed := true;
       has_profile := true;
       personalized_at := Some t;
       completion_percentage := 100;
       missing_fields := [];
       current_screen := None;
       next_screen := None;
       completed_screens := ["welcome"; "breathe"; "personalize"];
       onboarding_started_at := Profile.onboarding_started_at profile |}.
Proof.
  intros Hfind Hat Hg Hc Hp Hscr.
  unfold get_onboarding_status. rewrite Hfind.
  unfold status_of_profile. rewrite Hat, Hscr.
  destruct (goals profile) as [|g gs]; [done|].
  destruct (challenges profile) as [|c cs]; [done|].
  destruct (practice_preferences profile) as [|p ps]; [done|].
  cbv zeta. simpl String.eqb. cbv iota.
  rewrite determine_completed_screens_completed.
  change (length _) with 3%nat at 1.
  change (length _) with 0%nat at 1.
  by rewrite calculate_completion_full.
Qed.

Lemma completed_profile_status_witness :
  (first_by_user_id 2%N [profile_with_goal; profile_completed]
   = Some profile_completed
   ∧ Profile.personalized_at profile_completed = Some 20
   ∧ goals profile_completed ≠ []
   ∧ challenges profile_completed ≠ []
   ∧ practice_preferences profile_completed ≠ []
   ∧ onboarding_screen profile_completed = Some "completed")
  ∧ get_onboarding_status [profile_with_goal; profile_completed] 2%N
    = {| is_completed := true;
         has_profile := true;
         personalized_at := Some 20;
         completion_percentage := 100;
         missing_fields := [];
         current_screen := None;
         next_screen := None;
         completed_screens := ["welcome"; "breathe"; "personalize"];
         onboarding_started_at :=
           Profile.onboarding_started_at profile_completed |}.
Proof.
  assert (H1 : first_by_user_id 2%N [profile_with_goal; profile_completed]
               = Some profile_completed) by (vm_compute; reflexivity).
  assert (H2 : Profile.personalized_at profile_completed = Some 20)
    by reflexivity.
  assert (H3 : goals profile_completed ≠ []) by (vm_compute; discriminate).
  assert (H4 : challenges profile_completed ≠ [])
    by (vm_compute; discriminate).
  assert (H5 : practice_preferences profile_completed ≠ [])
    by (vm_compute; discriminate).
  assert (H6 : onboarding_screen profile_completed = Some "completed")
    by reflexivity.
  split; [by repeat split|].
  exact (completed_profile_status _ 2%N profile_completed 20
           H1 H2 H3 H4 H5 H6).
Defined.

Lemma no_profile_status_witness :
  (∀ p, p ∈ [profile_with_goal; profile_completed] → user_id p ≠ 7%N)
  ∧ get_onboarding_status [profile_with_goal; profile_completed] 7%N
    = {| is_completed := false;
         has_profile := false;
         personalized_at := None;
         completion_percentage := 0;
         missing_fields := ["profile"];
         current_screen := Some "welcome";
         next_screen := Some "breathe";
         completed_screens := [];
         onboarding_started_at := None |}.
Proof.
  assert (H : ∀ p, p ∈ [profile_with_goal; profile_completed] →
                   user_id p ≠ 7%N).
  { intros p Hp.
    apply elem_of_cons in Hp as [->|Hp]; [discriminate|].
    apply elem_of_cons in Hp as [->|Hp]; [discriminate|].
    by apply elem_of_nil in Hp. }
  split; [exact H|].
  exact (no_profile_status _ 7%N H).
Defined.

End OnboardingFacts.

(** ** More on the profile document engine *)

Module ProfileMore.
Import Profile Normal Examples ProfileFacts.

(** *** [str.strip] *)





(** *** Reading back what a setter wrote *)

Lemma data_set_personalization_value (self : UserProfile) (k : string) (v : Value) :
  data_or_empty (_set_personalization_value self k v)
  = match v with
    | VNone => delete k (data_or_empty self)
    | _ => <[k := v]> (data_or_empty self)
    end.
Proof. done. Qed.

(** X1: writing a list field and reading it back gives the value as a
    list ([None] as the empty list, a list, tuple or set as its elements, a
    scalar as a singleton); the key is then bound to a list, and no other
    key changes. *)
Theorem set_get_list_field (self : UserProfile) (k : string) (v : Value) :
  _get_list_field (_set_list_field self k v) k = as_list v
  ∧ data_or_empty (_set_list_field self k v) !! k = Some (VList (as_list v))
  ∧ ∀ k', k' ≠ k →
      data_or_empty (_set_list_field self k v) !! k'
      = data_or_empty self !! k'.
Proof.
  assert (Hd : data_or_empty (_set_list_field self k v)
               = <[k := VList (as_list v)]> (data_or_empty self))
    by (by destruct v).
  unfold _get_list_field, _get_personalization_value. rewrite Hd.
  rewrite lookup_insert_eq. split; [done|]. split; [done|].
  intros k' Hk'. by rewrite lookup_insert_ne.
Qed.


(** Writing a boolean field and reading it back gives the truth value
    of what was written, [False] for [None]; writing [None] removes the
    key, and anything else is stored as a boolean. *)
Theorem set_get_bool_field (self : UserProfile) (k : string) (v : Value) :
  _get_bool_field (_set_bool_field self k v) k = truthy v
  ∧ data_or_empty (_set_bool_field self k v) !! k
    = match v with
      | VNone => None
      | _ => Some (VBool (truthy v))
      end.
Proof.
  assert (Hd : data_or_empty (_set_bool_field self k v)
               = match v with
                 | VNone => delete k (data_or_empty self)
                 | _ => <[k := VBool (truthy v)]> (data_or_empty self)
                 end) by (by destruct v).
  unfold _get_bool_field, _get_personalization_value. rewrite Hd.
  destruct v; by rewrite ?lookup_delete_eq, ?lookup_insert_eq.
Qed.

(** A plain write followed by a read returns the value written, and
    the caller's default when the value written is [None], which removes
    the key; no other key changes. *)
Theorem set_get_personalization_value
    (self : UserProfile) (k : string) (v d : Value) :
  _get_personalization_value (_set_personalization_value self k v) k d
  = match v with VNone => d | _ => v end
  ∧ ∀ k', k' ≠ k →
      _get_personalization_value (_set_personalization_value self k v) k' d
      = _get_personalization_value self k' d.
Proof.
  unfold _get_personalization_value.
  rewrite data_set_personalization_value. split.
  - destruct v; by rewrite ?lookup_delete_eq, ?lookup_insert_eq.
  - intros k' Hk'.
    destruct v; by rewrite ?lookup_delete_ne, ?lookup_insert_ne.
Qed.

(** *** The bulk update *)

Lemma fields_disjoint (k : string) :
  k ∈ _LIST_FIELDS → k ∈ _BOOL_FIELDS → False.
Proof.
  intros H1 H2. unfold _LIST_FIELDS in H1.
  rewrite !elem_of_union, !elem_of_singleton in H1.
  destruct_or! H1; subst k; apply (bool_decide_pack _) in H2;
    by vm_compute in H2.
Qed.

(** The last entry for a key decides its final binding, whatever the
    document was before. *)
Lemma foldl_update_entry_last (updates : list (string * Value)) (k : string) :
  k ∈ updates.*1 →
  ∃ v0, (k, v0) ∈ updates
        ∧ ∀ data, foldl update_entry data updates !! k
                  = update_entry ∅ (k, v0) !! k.
Proof.
  induction updates as [|[k1 v1] updates IH]; intros Hk.
  - by apply elem_of_nil in Hk.
  - destruct (decide (k ∈ updates.*1)) as [Hin|Hout].
    + destruct (IH Hin) as (v0 & Hv0 & Hfold).
      exists v0. split; [by apply list_elem_of_further|].
      intros data. simpl. apply Hfold.
    + rewrite fmap_cons in Hk. apply elem_of_cons in Hk as [->|Hk]; [|done].
      exists v1. split; [apply list_elem_of_here|].
      intros data. simpl. rewrite foldl_update_entry_other by done.
      apply update_entry_self.
Qed.

Lemma update_entry_normal_at (data : gmap string Value) (k : string) (v0 v : Value) :
  update_entry data (k, v0) !! k = Some v → normal_at k v.
Proof.
  unfold update_entry, normal_at.
  destruct (decide (k ∈ _LIST_FIELDS)) as [HL|HL];
    [|destruct (decide (k ∈ _BOOL_FIELDS)) as [HB|HB]].
  - destruct v0;
      rewrite ?lookup_delete_eq, ?lookup_insert_eq; intros [= <-];
      (split; [discriminate|]);
      (split; [intros _; eexists; reflexivity|]);
      intros HB; exfalso; exact (fields_disjoint k HL HB).
  - destruct v0;
      rewrite ?lookup_delete_eq, ?lookup_insert_eq; intros [= <-];
      (split; [discriminate|]);
      (split; [intros HL'; exfalso; exact (HL HL')|]);
      intros _; eexists; reflexivity.
  - destruct v0;
      rewrite ?lookup_delete_eq, ?lookup_insert_eq; intros [= <-];
      (split; [discriminate|]);
      (split; [intros HL'; exfalso; exact (HL HL')|]);
      intros HB'; exfalso; exact (HB HB').
Qed.



(** X4: the bulk update keeps a document in normal form in normal form. *)
Theorem update_personalization_normalized
    (self : UserProfile) (updates : list (string * Value)) :
  normalized (data_or_empty self) →
  normalized (data_or_empty (update_personalization self updates)).
Proof.
  intros Hnorm k v Hkv.
  destruct (decide (k ∈ updates.*1)) as [Hin|Hout].
  - rewrite update_personalization_data in Hkv
      by (intros ->; by apply elem_of_nil in Hin).
    destruct (foldl_update_entry_last updates k Hin) as (v0 & _ & Hlast).
    rewrite Hlast in Hkv. by eapply update_entry_normal_at.
  - apply Hnorm. destruct updates as [|kv updates]; [done|].
    rewrite update_personalization_data in Hkv by done.
    by rewrite foldl_update_entry_other in Hkv.
Qed.

Lemma update_personalization_normalized_witness :
  normalized (data_or_empty profile_with_goal)
  ∧ normalized
      (data_or_empty
         (update_personalization profile_with_goal
            [("interests", VStr "mindfulness"); ("goals", VNone)])).
Proof.
  assert (H : normalized (data_or_empty profile_with_goal)).
  { intros k v.
    change (data_or_empty profile_with_goal)
      with ({[ "goals" := VList [VStr "reduce_stress"] ]} : gmap string Value).
    destruct (decide (k = "goals")) as [->|Hne].
    - rewrite lookup_singleton_eq. intros [= <-].
      split; [done|]. split; [by eexists|].
      intros Hb. by destruct (fields_disjoint "goals").
    - by rewrite lookup_singleton_ne. }
  split; [exact H|].
  exact (update_personalization_normalized profile_with_goal _ H).
Defined.

(** X5: two bulk updates in a row are one bulk update with the two
    mappings' items in sequence. *)
Theorem update_personalization_app
    (self : UserProfile) (u1 u2 : list (string * Value)) :
  update_personalization (update_personalization self u1) u2
  = update_personalization self (u1 ++ u2)%list.
Proof.
  destruct u1 as [|kv1 u1]; [done|].
  destruct u2 as [|kv2 u2]; [by rewrite app_nil_r|].
  unfold update_personalization. simpl is_nil. cbv iota.
  by rewrite foldl_app.
Qed.

Lemma foldl_update_entry_idempotent
    (data : gmap string Value) (u : list (string * Value)) :
  foldl update_entry (foldl update_entry data u) u = foldl update_entry data u.
Proof.
  apply map_eq. intros k.
  destruct (decide (k ∈ u.*1)) as [Hin|Hout].
  - destruct (foldl_update_entry_last u k Hin) as (v0 & _ & Hlast).
    by rewrite !Hlast.
  - by rewrite (foldl_update_entry_other u _ k Hout).
Qed.

(** X6: the bulk update is idempotent: applying the same mapping a second
    time changes nothing. *)
Theorem update_personalization_idempotent
    (self : UserProfile) (updates : list (string * Value)) :
  update_personalization (update_personalization self updates) updates
  = update_personalization self updates.
Proof.
  destruct updates as [|kv updates]; [done|].
  set (u := kv :: updates).
  transitivity
    (with_personalization_data self
       (foldl update_entry (foldl update_entry (data_or_empty self) u) u));
    [reflexivity|].
  by rewrite foldl_update_entry_idempotent.
Qed.




End ProfileMore.

(** ** More on the validator *)

Module ValidatorMore.
Import Catalog Selections Normal Examples SortFacts CatalogFacts.

Lemma filter_Forall_id {A} (P : A → Prop) `{!∀ x, Decision (P x)} (l : list A) :
  Forall P l → filter P l = l.
Proof.
  induction 1 as [|x l Hx Hl IH]; [done|].
  by rewrite filter_cons_True, IH.
Qed.

Lemma filter_Forall_nil {A} (P : A → Prop) `{!∀ x, Decision (P x)} (l : list A) :
  Forall (λ x, ¬ P x) l → filter P l = [].
Proof.
  induction 1 as [|x l Hx Hl IH]; [done|].
  by rewrite filter_cons_False.
Qed.

Lemma Forall_filter_self {A} (P : A → Prop) `{!∀ x, Decision (P x)} (l : list A) :
  Forall P (filter P l).
Proof.
  apply Forall_forall. intros x Hx.
  by apply list_elem_of_filter in Hx as [? _].
Qed.

(** The set of codes the validator checks against. *)
Lemma validate_template_codes_set (c : string) (codes : list string) (s : Session) :
  ∃ S : gset string,
    (S = match first_by_category c s with
         | Some r => active_codes (templates r)
         | None => default_codes c
         end)
    ∧ validate_template_codes c codes s
      = (Return (filter (λ x, x ∈ S) codes, filter (λ x, x ∉ S) codes), s).
Proof.
  eexists; split; [reflexivity|].
  rewrite validate_template_codes_run. by destruct codes.
Qed.

(** X8: validating again the codes the validator accepted accepts them
    all, and validating again the codes it rejected rejects them all. *)
Theorem validate_template_codes_idempotent (c : string) (codes : list string) (s : Session) :
  ∃ valid_codes invalid_codes,
    validate_template_codes c codes s
    = (Return (valid_codes, invalid_codes), s)
    ∧ validate_template_codes c valid_codes s
      = (Return (valid_codes, []), s)
    ∧ validate_template_codes c invalid_codes s
      = (Return ([], invalid_codes), s).
Proof.
  destruct (validate_template_codes_set c codes s) as (S & HS & Hrun).
  destruct (validate_template_codes_set c (filter (λ x, x ∈ S) codes) s)
    as (S1 & HS1 & Hrun1).
  destruct (validate_template_codes_set c (filter (λ x, x ∉ S) codes) s)
    as (S2 & HS2 & Hrun2).
  rewrite <- HS in HS1, HS2. subst S1 S2.
  eexists _, _. split; [exact Hrun|]. split.
  - rewrite Hrun1. do 2 f_equal. f_equal.
    + apply filter_Forall_id, Forall_filter_self.
    + apply filter_Forall_nil.
      eapply Forall_impl; [apply (Forall_filter_self (λ x, x ∈ S))|].
      by intros x Hx Hnx.
  - rewrite Hrun2. do 2 f_equal. f_equal.
    + apply filter_Forall_nil, (Forall_filter_self (λ x, x ∉ S)).
    + apply filter_Forall_id, Forall_filter_self.
Qed.

Lemma elem_of_active_codes (x : string) (ts : list Template) :
  x ∈ active_codes ts ↔ ∃ t, t ∈ ts ∧ code t = x ∧ get_is_active t = true.
Proof.
  unfold active_codes.
  rewrite elem_of_list_to_set, list_elem_of_fmap. split.
  - intros (t & -> & Ht). apply list_elem_of_filter in Ht as [Hact Ht].
    by exists t.
  - intros (t & Ht & <- & Hact). exists t. split; [done|].
    by apply list_elem_of_filter.
Qed.

(** X9: for a category that has a row, the validator accepts exactly the
    candidates whose code the active-template listing of the category
    shows, that is the codes of the stored items that are active; codes of
    inactive items and unknown codes are rejected. *)
Theorem validate_agrees_with_listing (c : string) (codes : list string)
    (s : Session) (r : PersonalizationTemplate) :
  first_by_category c s = Some r →
  ∃ valid_codes invalid_codes listing,
    validate_template_codes c codes s
    = (Return (valid_codes, invalid_codes), s)
    ∧ get_active_templates_for_category c s = (Return listing, s)
    ∧ (∀ x, x ∈ valid_codes ↔ x ∈ codes ∧ x ∈ code <$> listing)
    ∧ (∀ x, x ∈ invalid_codes ↔ x ∈ codes ∧ x ∉ code <$> listing)
    ∧ (∀ x, x ∈ code <$> listing ↔
            ∃ t, t ∈ templates r ∧ code t = x ∧ get_is_active t = true).
Proof.
  intros Hr.
  destruct (validate_template_codes_set c codes s) as (S & HS & Hrun).
  rewrite Hr in HS. subst S.
  assert (Hlist : ∀ x,
            x ∈ code <$> sort_by get_display_order
                     (filter (λ t, get_is_active t = true) (templates r))
            ↔ x ∈ active_codes (templates r)).
  { intros x. unfold active_codes.
    by rewrite elem_of_list_to_set, sort_by_perm. }
  eexists _, _, _. split; [exact Hrun|]. split.
  { unfold get_active_templates_for_category. run_handler.
    by rewrite Hr. }
  split; [|split].
  - intros x. rewrite list_elem_of_filter, Hlist. tauto.
  - intros x. rewrite list_elem_of_filter, Hlist. tauto.
  - intros x. rewrite Hlist. apply elem_of_active_codes.
Qed.

Lemma validate_agrees_with_listing_witness :
  first_by_category "goals" example_session = Some goals_row
  ∧ ∃ valid_codes invalid_codes listing,
      validate_template_codes "goals" ["b"; "c"; "z"] example_session
      = (Return (valid_codes, invalid_codes), example_session)
      ∧ get_active_templates_for_category "goals" example_session
        = (Return listing, example_session)
      ∧ (∀ x, x ∈ valid_codes ↔ x ∈ ["b"; "c"; "z"] ∧ x ∈ code <$> listing)
      ∧ (∀ x, x ∈ invalid_codes ↔
              x ∈ ["b"; "c"; "z"] ∧ x ∉ code <$> listing)
      ∧ (∀ x, x ∈ code <$> listing ↔
              ∃ t, t ∈ templates goals_row ∧ code t = x
                   ∧ get_is_active t = true).
Proof.
  assert (H : first_by_category "goals" example_session = Some goals_row)
    by reflexivity.
  split; [exact H|].
  exact (validate_agrees_with_listing "goals" ["b"; "c"; "z"]
           example_session goals_row H).
Defined.

(** *** The report on a profile's selections *)



Lemma invalid_of_None (s : Session) (c : string) : invalid_of s c None = [].
Proof. done. Qed.






End ValidatorMore.

(** ** More on the store and on seeding *)

Module SeederFacts.
Import Catalog Seeder Normal Examples SortFacts CatalogFacts.

(** *** The store *)

Lemma first_by_category_None (c : string) (s : Session) :
  first_by_category c s = None ↔ c ∉ category <$> s.
Proof.
  induction s as [|r s IH]; csimpl.
  - split; [intros _; apply not_elem_of_nil | done].
  - rewrite not_elem_of_cons.
    destruct (String.eqb_spec (category r) c) as [Heq|Hne].
    + split; [done | by intros [? _]].
    + rewrite IH. split; [by split | by intros [_ ?]].
Qed.

Lemma first_by_category_write_back_ne (c : string) (s : Session) (r : PersonalizationTemplate) :
  category r ≠ c →
  first_by_category c (write_back r s) = first_by_category c s.
Proof.
  intros Hne. induction s as [|r0 s IH]; simpl; [done|].
  destruct (String.eqb_spec (category r0) (category r)) as [Heq|Hne0]; simpl.
  - rewrite (proj2 (String.eqb_neq _ _) Hne).
    rewrite Heq. by rewrite (proj2 (String.eqb_neq _ _) Hne).
  - by rewrite IH.
Qed.

Lemma first_by_category_app_ne (c : string) (s : Session) (r : PersonalizationTemplate) :
  category r ≠ c →
  first_by_category c (s ++ [r])%list = first_by_category c s.
Proof.
  intros Hne. induction s as [|r0 s IH]; simpl.
  - by rewrite (proj2 (String.eqb_neq _ _) Hne).
  - by rewrite IH.
Qed.

Lemma category_write_back (r : PersonalizationTemplate) (s : Session) :
  category <$> write_back r s = category <$> s.
Proof.
  induction s as [|r0 s IH]; csimpl; [done|].
  destruct (String.eqb_spec (category r0) (category r)) as [Heq|Hne]; csimpl.
  - by rewrite Heq.
  - by rewrite IH.
Qed.

Lemma unique_categories_write_back (r : PersonalizationTemplate) (s : Session) :
  unique_categories s → unique_categories (write_back r s).
Proof. unfold unique_categories. by rewrite category_write_back. Qed.

Lemma unique_categories_add (r : PersonalizationTemplate) (s : Session) :
  first_by_category (category r) s = None →
  unique_categories s → unique_categories (s ++ [r])%list.
Proof.
  unfold unique_categories. intros Hnone Hs.
  apply first_by_category_None in Hnone.
  rewrite fmap_app. apply NoDup_app. split; [done|]. split.
  - intros x Hx Hin. apply list_elem_of_singleton in Hin. by subst.
  - apply NoDup_singleton.
Qed.

(** *** One step of the seeding loop *)

Lemma category_with_metadata (c : string) (ts : list Template) (v : Z)
    (created : datetime) (updated : option datetime) :
  category (with_metadata c ts v created updated) = c.
Proof. done. Qed.

Lemma seed_category_same (now : string → datetime) (overwrite : bool)
    (s : Session) (c : string) (ts : list Template) :
  first_by_category c (seed_category now overwrite s (c, ts))
  = Some (seeded_row now overwrite c ts (first_by_category c s)).
Proof.
  unfold seed_category, seeded_row.
  destruct (first_by_category c s) as [r|] eqn:Hr.
  - destruct overwrite; [|done].
    by apply (first_by_category_write_back c s r).
  - by apply first_by_category_add.
Qed.

Lemma seed_category_other (now : string → datetime) (overwrite : bool)
    (s : Session) (c c' : string) (ts : list Template) :
  c ≠ c' →
  first_by_category c' (seed_category now overwrite s (c, ts))
  = first_by_category c' s.
Proof.
  intros Hne. unfold seed_category.
  destruct (first_by_category c s) as [r|].
  - destruct overwrite; [|done].
    by apply first_by_category_write_back_ne.
  - by apply first_by_category_app_ne.
Qed.

(** The row of every category after a run of the loop over items with
    distinct keys. *)
Lemma seed_fold_lookup (now : string → datetime) (overwrite : bool)
    (items : list (string * list Template)) :
  NoDup items.*1 →
  ∀ (s : Session) (c : string),
    first_by_category c (foldl (seed_category now overwrite) s items)
    = match (list_to_map items : gmap string (list Template)) !! c with
      | Some ts => Some (seeded_row now overwrite c ts (first_by_category c s))
      | None => first_by_category c s
      end.
Proof.
  induction items as [|[c1 ts1] items IH]; intros Hnd s c; [done|].
  rewrite fmap_cons in Hnd. apply NoDup_cons in Hnd as [Hc1 Hnd].
  cbn [foldl]. rewrite (IH Hnd). cbn [list_to_map foldr curry uncurry].
  change ((c1, ts1).1) with c1 in Hc1.
  destruct (decide (c1 = c)) as [->|Hne].
  - rewrite lookup_insert_eq.
    rewrite (proj1 (not_elem_of_list_to_map _ _) Hc1).
    apply seed_category_same.
  - rewrite lookup_insert_ne by done.
    by rewrite seed_category_other.
Qed.

Lemma default_templates_items_NoDup : NoDup default_templates_items.*1.
Proof. apply (bool_decide_unpack _). by vm_compute. Qed.

Lemma default_templates_items_map :
  list_to_map default_templates_items = get_default_templates.
Proof. reflexivity. Qed.

Lemma seed_templates_lookup (now : string → datetime)
    (overwrite clear_existing : bool) (s : Session) (c : string) :
  first_by_category c (seed_templates now overwrite clear_existing s).2
  = match get_default_templates !! c with
    | Some ts =>
        Some (seeded_row now overwrite c ts
                (first_by_category c (if clear_existing then [] else s)))
    | None => first_by_category c (if clear_existing then [] else s)
    end.
Proof.
  unfold seed_templates. cbn [snd].
  rewrite (seed_fold_lookup _ _ _ default_templates_items_NoDup).
  by rewrite default_templates_items_map.
Qed.

(** *** Seeding *)

(** X11: seeding without overwriting leaves the row of every category that
    has one exactly as it was, gives every default category without a row
    a new row at version 1 with its default templates and screen metadata,
    and creates no row for any other category. *)
Theorem seed_templates_keeps_existing (now : string → datetime)
    (s : Session) (c : string) :
  (∀ r, first_by_category c s = Some r →
        first_by_category c (seed_templates now false false s).2 = Some r)
  ∧ (first_by_category c s = None →
     first_by_category c (seed_templates now false false s).2
     = (λ ts, with_metadata c ts 1 (now c) None)
         <$> get_default_templates !! c).
Proof.
  rewrite seed_templates_lookup. split.
  - intros r ->. by destruct (get_default_templates !! c).
  - intros ->. by destruct (get_default_templates !! c).
Qed.

Lemma seed_fold_present (now : string → datetime)
    (items : list (string * list Template)) (s : Session) :
  (∀ c, c ∈ items.*1 → is_Some (first_by_category c s)) →
  foldl (seed_category now false) s items = s.
Proof.
  induction items as [|[c ts] items IH]; intros Hall; [done|].
  cbn [foldl]. unfold seed_category at 2.
  destruct (Hall c) as [r ->]; [apply list_elem_of_here|].
  apply IH. intros c' Hc'. apply Hall. by apply list_elem_of_further.
Qed.

(** X12: seeding without overwriting is idempotent: a second run, at
    whatever time, leaves the table that the first run produced. *)
Theorem seed_templates_idempotent (now1 now2 : string → datetime) (s : Session) :
  (seed_templates now2 false false (seed_templates now1 false false s).2).2
  = (seed_templates now1 false false s).2.
Proof.
  unfold seed_templates at 1. cbn [snd].
  apply seed_fold_present. intros c Hc.
  rewrite seed_templates_lookup, <- default_templates_items_map.
  destruct (list_to_map default_templates_items !! c) as [ts|] eqn:Hts;
    [by eexists|].
  by apply not_elem_of_list_to_map in Hts.
Qed.

(** X13: seeding without overwriting never changes what the validator
    answers: the rows it adds hold the very defaults the validator falls
    back to for a category without a row. *)
Theorem seed_templates_keeps_validation (now : string → datetime)
    (s : Session) (c : string) (codes : list string) :
  (validate_template_codes c codes (seed_templates now false false s).2).1
  = (validate_template_codes c codes s).1.
Proof.
  rewrite !validate_template_codes_run. cbn [fst]. do 2 f_equal.
  rewrite seed_templates_lookup. unfold default_codes.
  destruct (first_by_category c s) as [r|];
    by destruct (get_default_templates !! c).
Qed.

(** X14: resetting to the defaults gives every default category its
    default templates and screen position; a row that existed keeps its
    creation time and has its version increased by 1, a new row starts at
    version 1; rows of categories outside the defaults are left alone. *)
Theorem reset_templates_to_defaults_rows (now : string → datetime)
    (s : Session) (c : string) :
  match get_default_templates !! c with
  | Some ts =>
      ∃ r', first_by_category c (reset_templates_to_defaults now s).2 = Some r'
            ∧ templates r' = ts
            ∧ view_order r'
              = from_option meta_view_order 0 (SCREEN_METADATA !! c)
            ∧ match first_by_category c s with
              | Some r => version r' = version r + 1
                          ∧ created_at r' = created_at r
                          ∧ updated_at r' = Some (now c)
              | None => version r' = 1 ∧ updated_at r' = None
              end
  | None =>
      first_by_category c (reset_templates_to_defaults now s).2
      = first_by_category c s
  end.
Proof.
  unfold reset_templates_to_defaults. rewrite seed_templates_lookup.
  destruct (get_default_templates !! c) as [ts|]; [|done].
  eexists; split; [reflexivity|].
  by destruct (first_by_category c s).
Qed.

Lemma seed_category_unique (now : string → datetime) (overwrite : bool)
    (s : Session) (entry : string * list Template) :
  unique_categories s → unique_categories (seed_category now overwrite s entry).
Proof.
  destruct entry as [c ts]. intros Hs. unfold seed_category.
  destruct (first_by_category c s) as [r|] eqn:Hr.
  - destruct overwrite; [|done]. by apply unique_categories_write_back.
  - by apply unique_categories_add.
Qed.

Lemma seed_fold_unique (now : string → datetime) (overwrite : bool)
    (items : list (string * list Template)) :
  ∀ s, unique_categories s →
       unique_categories (foldl (seed_category now overwrite) s items).
Proof.
  induction items as [|entry items IH]; intros s Hs; [exact Hs|].
  cbn [foldl]. by apply IH, seed_category_unique.
Qed.

(** X15: seeding, with or without overwriting or clearing first, keeps
    the table at one row per category. *)
Theorem seed_templates_unique (now : string → datetime)
    (overwrite clear_existing : bool) (s : Session) :
  unique_categories s →
  unique_categories (seed_templates now overwrite clear_existing s).2.
Proof.
  intros Hs. unfold seed_templates. cbn [snd].
  apply seed_fold_unique.
  destruct clear_existing; [apply NoDup_nil_2 | done].
Qed.

Lemma seed_templates_unique_witness :
  unique_categories example_session
  ∧ unique_categories (seed_templates clock_a true false example_session).2.
Proof.
  assert (H : unique_categories example_session)
    by (apply (bool_decide_unpack _); vm_compute; exact I).
  split; [exact H|].
  exact (seed_templates_unique clock_a true false example_session H).
Defined.

(** On a table cleared and seeded, the onboarding view shows the
    eleven screens of the defaults in the order of their screen position,
    the consent screen last. *)
Theorem seed_templates_view (now : string → datetime) (overwrite : bool) (s : Session) :
  ∃ views,
    get_onboarding_templates_view (seed_templates now overwrite true s).2
    = (Return views, (seed_templates now overwrite true s).2)
    ∧ view_category <$> views
      = ["basic"; "lifestyle"; "goals"; "challenges"; "practices";
         "experience_levels"; "mood_tendencies"; "practice_times";
         "reminders"; "interests"; "consent"]
    ∧ view_view_order <$> views = [1; 2; 3; 4; 5; 6; 7; 8; 9; 10; 11].
Proof.
  eexists. split; [reflexivity|].
  split; by vm_compute.
Qed.

End SeederFacts.

(** ** More on the admin handlers *)

Module AdminMore.
Import Catalog Normal Examples SortFacts CatalogFacts ValidatorMore SeederFacts.

(** *** What each handler does, in every case *)

Ltac run_guard :=
  unfold mbind at 1, handler_bind, bind; unfold check_category at 1;
  case_bool_decide; [|done].

Lemma update_category_templates_total (now : datetime) (c : string)
    (tu : list TemplateItem) (s : Session) :
  update_category_templates now c tu s
  = if bool_decide (c ∈ valid_categories) then
      match first_by_category c s with
      | Some r =>
          (Return ("Templates updated for category: " +:+ c,
                   mkCategoryTemplates c (model_dump <$> tu) (version r + 1)),
           write_back (bump now (model_dump <$> tu) r) s)
      | None =>
          (Return ("Templates updated for category: " +:+ c,
                   mkCategoryTemplates c (model_dump <$> tu) 1),
           (s ++ [new_record now c (model_dump <$> tu)])%list)
      end
    else (Raise invalid_category, s).
Proof.
  unfold update_category_templates. run_guard. run_handler.
  by destruct (first_by_category c s).
Qed.

Lemma add_template_to_category_total (now : datetime) (c : string)
    (item : TemplateItem) (s : Session) :
  add_template_to_category now c item s
  = if bool_decide (c ∈ valid_categories) then
      match first_by_category c s with
      | Some r =>
          if bool_decide (item_code item ∈ code <$> templates r)
          then (Raise (duplicate_code (item_code item) c), s)
          else (Return ("Template added to category: " +:+ c,
                        model_dump item),
                write_back
                  (bump now (templates r ++ [model_dump item])%list r) s)
      | None =>
          (Return ("Template added to category: " +:+ c, model_dump item),
           (s ++ [new_record now c [model_dump item]])%list)
      end
    else (Raise invalid_category, s).
Proof.
  unfold add_template_to_category. run_guard. run_handler.
  destruct (first_by_category c s) as [r|]; [|done].
  rewrite (bool_decide_ext _ (item_code item ∈ code <$> templates r))
    by apply elem_of_list_to_set.
  by case_bool_decide.
Qed.

Lemma delete_template_from_category_total (now : datetime) (c tc : string)
    (s : Session) :
  delete_template_from_category now c tc s
  = if bool_decide (c ∈ valid_categories) then
      match first_by_category c s with
      | Some r =>
          match deactivate tc (templates r) with
          | Some ts =>
              (Return ("Template '" +:+ tc +:+ "' deactivated in category '"
                         +:+ c +:+ "'"),
               write_back (bump now ts r) s)
          | None => (Raise (template_not_found tc c), s)
          end
      | None => (Raise (category_not_found c), s)
      end
    else (Raise invalid_category, s).
Proof.
  unfold delete_template_from_category. run_guard. run_handler.
  destruct (first_by_category c s) as [r|]; [|done].
  by destruct (deactivate tc (templates r)).
Qed.

(** X16: the three mutating admin handlers touch the row of their own
    category only: whatever the outcome, the row of every other category
    is as before. *)
Theorem admin_handlers_frame (now : datetime) (c c' : string) (s : Session)
    (tu : list TemplateItem) (item : TemplateItem) (tc : string) :
  c ≠ c' →
  first_by_category c' (update_category_templates now c tu s).2
  = first_by_category c' s
  ∧ first_by_category c' (add_template_to_category now c item s).2
    = first_by_category c' s
  ∧ first_by_category c' (delete_template_from_category now c tc s).2
    = first_by_category c' s.
Proof.
  intros Hne.
  rewrite update_category_templates_total, add_template_to_category_total,
    delete_template_from_category_total.
  case_bool_decide; [|done].
  destruct (first_by_category c s) as [r|] eqn:Hr.
  - assert (Hcat : ∀ ts, category (bump now ts r) ≠ c').
    { intros ts. rewrite category_bump.
      by rewrite (first_by_category_category c s r Hr). }
    split; [by apply first_by_category_write_back_ne|]. split.
    + case_bool_decide; [done|]. by apply first_by_category_write_back_ne.
    + destruct (deactivate tc (templates r)); [|done].
      by apply first_by_category_write_back_ne.
  - split; [by apply first_by_category_app_ne|].
    split; [by apply first_by_category_app_ne | done].
Qed.

Lemma admin_handlers_frame_witness :
  "goals" ≠ "mood_tendencies"
  ∧ first_by_category "mood_tendencies"
      (update_category_templates 200 "goals" [new_item "d"] example_session).2
    = first_by_category "mood_tendencies" example_session
  ∧ first_by_category "mood_tendencies"
      (add_template_to_category 200 "goals" (new_item "d") example_session).2
    = first_by_category "mood_tendencies" example_session
  ∧ first_by_category "mood_tendencies"
      (delete_template_from_category 200 "goals" "b" example_session).2
    = first_by_category "mood_tendencies" example_session.
Proof.
  assert (H : "goals" ≠ "mood_tendencies") by discriminate.
  split; [exact H|].
  exact (admin_handlers_frame 200 "goals" "mood_tendencies" example_session
           [new_item "d"] (new_item "d") "b" H).
Defined.

(** X17: a mutating admin handler that raises has written nothing: the
    table is the one it was called on. *)
Theorem admin_handlers_raise_unchanged (now : datetime) (c : string)
    (s : Session) (tu : list TemplateItem) (item : TemplateItem)
    (tc : string) (e : HTTPException) :
  ((update_category_templates now c tu s).1 = Raise e →
   (update_category_templates now c tu s).2 = s)
  ∧ ((add_template_to_category now c item s).1 = Raise e →
     (add_template_to_category now c item s).2 = s)
  ∧ ((delete_template_from_category now c tc s).1 = Raise e →
     (delete_template_from_category now c tc s).2 = s).
Proof.
  rewrite update_category_templates_total, add_template_to_category_total,
    delete_template_from_category_total.
  case_bool_decide; [|done].
  destruct (first_by_category c s) as [r|]; [|done].
  split; [done|]. split.
  - by case_bool_decide.
  - by destruct (deactivate tc (templates r)).
Qed.

(** X18: removing a template fails with 400 for a category that is not
    admin-editable, with 404 for an admin-editable category without a row
    and with 404 for a code that the row does not hold; it succeeds
    exactly when the category is admin-editable and its row holds the
    code, whether the item is still active or not. *)
Theorem delete_template_outcome (now : datetime) (c tc : string) (s : Session) :
  (c ∉ valid_categories →
   delete_template_from_category now c tc s = (Raise invalid_category, s))
  ∧ (c ∈ valid_categories → first_by_category c s = None →
     delete_template_from_category now c tc s
     = (Raise (category_not_found c), s))
  ∧ (∀ r, c ∈ valid_categories → first_by_category c s = Some r →
          tc ∉ code <$> templates r →
          delete_template_from_category now c tc s
          = (Raise (template_not_found tc c), s))
  ∧ (succeeds (delete_template_from_category now c tc) s ↔
     c ∈ valid_categories
     ∧ ∃ r, first_by_category c s = Some r ∧ tc ∈ code <$> templates r).
Proof.
  rewrite delete_template_from_category_total.
  split; [|split; [|split]].
  - intros Hc. by rewrite bool_decide_eq_false_2.
  - intros Hc ->. by rewrite bool_decide_eq_true_2.
  - intros r Hc -> Htc. rewrite bool_decide_eq_true_2 by done.
    destruct (deactivate tc (templates r)) as [ts|] eqn:Hts; [|done].
    destruct Htc. apply deactivate_is_Some. by eexists.
  - unfold succeeds. rewrite delete_template_from_category_total.
    case_bool_decide as Hc.
    + destruct (first_by_category c s) as [r|].
      * destruct (deactivate tc (templates r)) as [ts|] eqn:Hts.
        -- split; [|by eexists _, _]. intros _. split; [done|].
           exists r. split; [done|]. apply deactivate_is_Some. by eexists.
        -- split; [by intros (? & ? & ?)|].
           intros (_ & r' & [= <-] & Htc).
           apply deactivate_is_Some in Htc as [ts Hts']. congruence.
      * split; [by intros (? & ? & ?) | by intros (_ & ? & ? & _)].
    + split; [by intros (? & ? & ?) | by intros [? _]].
Qed.

(** X19: the three mutating admin handlers keep the table at one row per
    category: they add a row only for a category that has none. *)
Theorem admin_handlers_unique_categories (now : datetime) (c : string)
    (s : Session) (tu : list TemplateItem) (item : TemplateItem) (tc : string) :
  unique_categories s →
  unique_categories (update_category_templates now c tu s).2
  ∧ unique_categories (add_template_to_category now c item s).2
  ∧ unique_categories (delete_template_from_category now c tc s).2.
Proof.
  intros Hs.
  rewrite update_category_templates_total, add_template_to_category_total,
    delete_template_from_category_total.
  case_bool_decide; [|done].
  destruct (first_by_category c s) as [r|] eqn:Hr.
  - split; [by apply unique_categories_write_back|]. split.
    + case_bool_decide; [done|]. by apply unique_categories_write_back.
    + destruct (deactivate tc (templates r)); [|done].
      by apply unique_categories_write_back.
  - split; [by apply unique_categories_add|].
    split; [by apply unique_categories_add | done].
Qed.

Lemma admin_handlers_unique_categories_witness :
  unique_categories example_session
  ∧ unique_categories
      (update_category_templates 200 "interests" [new_item "d"]
         example_session).2
  ∧ unique_categories
      (add_template_to_category 200 "interests" (new_item "d")
         example_session).2
  ∧ unique_categories
      (delete_template_from_category 200 "goals" "b" example_session).2.
Proof.
  assert (H : unique_categories example_session)
    by (apply (bool_decide_unpack _); vm_compute; exact I).
  split; [exact H|].
  destruct (admin_handlers_unique_categories 200 "interests" example_session
              [new_item "d"] (new_item "d") "b" H) as (H1 & H2 & _).
  destruct (admin_handlers_unique_categories 200 "goals" example_session
              [new_item "d"] (new_item "d") "b" H) as (_ & _ & H3).
  by repeat split.
Defined.

(** X20: once an item was added to a category, adding an item with the
    same code again is rejected with the duplicate-code error, and the
    admin view of the category then shows the added item last, whether the
    first add created the row or extended it. *)
Theorem add_then_add_again (now now' : datetime) (c : string)
    (item item' : TemplateItem) (s s' : Session) (resp : string * Template) :
  add_template_to_category now c item s = (Return resp, s') →
  item_code item' = item_code item →
  add_template_to_category now' c item' s'
  = (Raise (duplicate_code (item_code item) c), s')
  ∧ ∃ shown, get_category_templates c s' = (Return shown, s')
             ∧ last (ct_templates shown) = Some (model_dump item)
             ∧ ct_templates shown
               = (stored_templates c s ++ [model_dump item])%list.
Proof.
  rewrite add_template_to_category_total. intros Hadd Hcode.
  case_bool_decide as Hc; [|done].
  assert (Hrow : ∃ r', first_by_category c s' = Some r'
                       ∧ templates r'
                         = (stored_templates c s ++ [model_dump item])%list).
  { unfold stored_templates.
    destruct (first_by_category c s) as [r|] eqn:Hr.
    - case_bool_decide; [done|]. injection Hadd as _ <-.
      exists (bump now (templates r ++ [model_dump item])%list r).
      split; [|reflexivity].
      apply (first_by_category_write_back c s r); [done|].
      by rewrite category_bump, (first_by_category_category c s r Hr).
    - injection Hadd as _ <-.
      exists (new_record now c [model_dump item]).
      split; [|reflexivity].
      by apply first_by_category_add. }
  destruct Hrow as (r' & Hr' & Hts). split.
  - rewrite add_template_to_category_total, Hr', Hcode.
    rewrite bool_decide_eq_true_2 by done.
    rewrite bool_decide_eq_true_2; [done|].
    rewrite Hts, fmap_app, elem_of_app. right. apply list_elem_of_here.
  - unfold get_category_templates. run_guard. run_handler. rewrite Hr'.
    eexists. split; [reflexivity|]. simpl. rewrite Hts.
    split; [apply last_snoc | done].
Qed.

Lemma add_then_add_again_witness :
  (add_template_to_category 200 "goals" (new_item "d") example_session
   = (Return ("Template added to category: goals", model_dump (new_item "d")),
      (add_template_to_category 200 "goals" (new_item "d") example_session).2)
   ∧ item_code (new_item "d") = item_code (new_item "d"))
  ∧ add_template_to_category 201 "goals" (new_item "d")
      (add_template_to_category 200 "goals" (new_item "d") example_session).2
    = (Raise (duplicate_code "d" "goals"),
       (add_template_to_category 200 "goals" (new_item "d") example_session).2).
Proof.
  assert (H1 : add_template_to_category 200 "goals" (new_item "d")
                 example_session
               = (Return ("Template added to category: goals",
                          model_dump (new_item "d")),
                  (add_template_to_category 200 "goals" (new_item "d")
                     example_session).2)) by (vm_compute; reflexivity).
  assert (H2 : item_code (new_item "d") = item_code (new_item "d"))
    by reflexivity.
  split; [by split|].
  exact (proj1 (add_then_add_again 200 201 "goals" (new_item "d")
                  (new_item "d") example_session _ _ H1 H2)).
Defined.

Lemma code_deactivate (tc : string) (ts ts' : list Template) :
  deactivate tc ts = Some ts' → code <$> ts' = code <$> ts.
Proof.
  revert ts'. induction ts as [|t ts IH]; intros ts'; simpl; [done|].
  destruct (String.eqb (code t) tc).
  - by intros [= <-].
  - destruct (deactivate tc ts) as [ts0|]; [|done].
    intros [= <-]. csimpl. by rewrite (IH ts0).
Qed.

Lemma unique_codes_write_back (c : string) (s : Session)
    (r r' : PersonalizationTemplate) :
  first_by_category c s = Some r → category r' = c →
  NoDup (code <$> templates r') →
  unique_codes s → unique_codes (write_back r' s).
Proof.
  intros Hr Hcat Hnd Hs c0 r0 Hr0.
  destruct (decide (c = c0)) as [<-|Hne].
  - rewrite (first_by_category_write_back c s r r' Hr Hcat) in Hr0.
    by injection Hr0 as <-.
  - rewrite first_by_category_write_back_ne in Hr0 by congruence.
    by apply (Hs c0).
Qed.

Lemma unique_codes_add (s : Session) (r' : PersonalizationTemplate) :
  first_by_category (category r') s = None →
  NoDup (code <$> templates r') →
  unique_codes s → unique_codes (s ++ [r'])%list.
Proof.
  intros Hnone Hnd Hs c0 r0 Hr0.
  destruct (decide (category r' = c0)) as [<-|Hne].
  - rewrite (first_by_category_add _ s r' Hnone eq_refl) in Hr0.
    by injection Hr0 as <-.
  - rewrite first_by_category_app_ne in Hr0 by done. by apply (Hs c0).
Qed.

Lemma first_by_category_elem_of (c : string) (s : Session) (r : PersonalizationTemplate) :
  first_by_category c s = Some r → r ∈ s.
Proof.
  induction s as [|r0 s IH]; simpl; [done|].
  destruct (String.eqb (category r0) c).
  - intros [= ->]. apply list_elem_of_here.
  - intros Hr. by apply list_elem_of_further, IH.
Qed.

Lemma unique_codes_Forall (s : Session) :
  Forall (λ r, NoDup (code <$> templates r)) s → unique_codes s.
Proof.
  intros Hall c r Hr. apply first_by_category_elem_of in Hr.
  by apply (proj1 (Forall_forall _ _) Hall).
Qed.

(** X21: adding an item and deactivating an item keep the template codes
    of every row free of duplicates; deactivating removes nothing, the
    codes of the row stay the same in the same order. *)
Theorem add_and_delete_keep_codes_unique (now : datetime) (c : string)
    (s : Session) (item : TemplateItem) (tc : string) :
  unique_codes s →
  unique_codes (add_template_to_category now c item s).2
  ∧ unique_codes (delete_template_from_category now c tc s).2
  ∧ (code <$> stored_templates c (delete_template_from_category now c tc s).2)
    = (code <$> stored_templates c s).
Proof.
  intros Hs.
  rewrite add_template_to_category_total,
    delete_template_from_category_total.
  case_bool_decide as Hc; [|done].
  destruct (first_by_category c s) as [r|] eqn:Hr.
  - pose proof (first_by_category_category c s r Hr) as Hcat.
    split; [|split].
    + case_bool_decide as Hin; [done|].
      apply (unique_codes_write_back c s r); [done | done | | done].
      cbn [templates bump]. rewrite fmap_app. apply NoDup_app.
      split; [by apply (Hs c)|]. split; [|apply NoDup_singleton].
      intros x Hx Hx'. apply list_elem_of_singleton in Hx'. by subst.
    + destruct (deactivate tc (templates r)) as [ts|] eqn:Hts; [|done].
      apply (unique_codes_write_back c s r); [done | done | | done].
      cbn [templates bump]. rewrite (code_deactivate tc _ _ Hts).
      by apply (Hs c).
    + destruct (deactivate tc (templates r)) as [ts|] eqn:Hts;
        [|done].
      unfold stored_templates. cbn [snd].
      rewrite (first_by_category_write_back c s r) by done.
      rewrite Hr. cbn [templates bump]. by apply (code_deactivate tc).
  - split; [|done].
    apply unique_codes_add; [done | apply NoDup_singleton | done].
Qed.

Lemma add_and_delete_keep_codes_unique_witness :
  unique_codes example_session
  ∧ unique_codes
      (add_template_to_category 200 "goals" (new_item "d") example_session).2
  ∧ unique_codes
      (delete_template_from_category 200 "goals" "a" example_session).2
  ∧ (code <$> stored_templates "goals"
               (delete_template_from_category 200 "goals" "a"
                  example_session).2)
    = (code <$> stored_templates "goals" example_session).
Proof.
  assert (H : unique_codes example_session).
  { apply unique_codes_Forall, (bool_decide_unpack _).
    vm_compute. exact I. }
  split; [exact H|].
  exact (add_and_delete_keep_codes_unique 200 "goals" example_session
           (new_item "d") "a" H).
Defined.




(** X23: replacing the templates of an admin-editable category always
    succeeds, and the admin view read right after returns what the
    replacement answered: the submitted items, in order, at version 1 for
    a new row and at the previous version plus 1 otherwise. *)
Theorem update_then_get (now : datetime) (c : string)
    (tu : list TemplateItem) (s : Session) :
  c ∈ valid_categories →
  ∃ msg shown s',
    update_category_templates now c tu s = (Return (msg, shown), s')
    ∧ get_category_templates c s' = (Return shown, s')
    ∧ ct_templates shown = model_dump <$> tu
    ∧ ct_version shown
      = match first_by_category c s with
        | Some r => version r + 1
        | None => 1
        end.
Proof.
  intros Hc. rewrite update_category_templates_total.
  rewrite bool_decide_eq_true_2 by done.
  destruct (first_by_category c s) as [r|] eqn:Hr;
    eexists _, _, _; (split; [reflexivity|]); (split; [|done]);
    unfold get_category_templates; run_guard; run_handler.
  - rewrite (first_by_category_write_back c s r); [done | done |].
    by rewrite category_bump, (first_by_category_category c s r Hr).
  - by rewrite (first_by_category_add c s
                  (new_record now c (model_dump <$> tu)) Hr eq_refl).
Qed.

Lemma update_then_get_witness :
  "interests" ∈ valid_categories
  ∧ ∃ msg shown s',
      update_category_templates 200 "interests" [new_item "d"]
        example_session = (Return (msg, shown), s')
      ∧ get_category_templates "interests" s' = (Return shown, s')
      ∧ ct_templates shown = model_dump <$> [new_item "d"]
      ∧ ct_version shown
        = match first_by_category "interests" example_session with
          | Some r => version r + 1
          | None => 1
          end.
Proof.
  assert (H : "interests" ∈ valid_categories)
    by (apply (bool_decide_unpack _); vm_compute; exact I).
  split; [exact H|].
  exact (update_then_get 200 "interests" [new_item "d"] example_session H).
Defined.

(** *** The onboarding view and the listing *)

Lemma insert_by_fmap {A B} (k1 : A → Z) (k2 : B → Z) (f : A → B) (x : A) (l : list A) :
  (∀ a, k2 (f a) = k1 a) →
  insert_by k2 (f x) (f <$> l) = f <$> insert_by k1 x l.
Proof.
  intros Hk. induction l as [|y l IH]; csimpl; [done|].
  rewrite !Hk. destruct (k1 x <=? k1 y); csimpl; [done|]. by rewrite IH.
Qed.

Lemma sort_by_fmap {A B} (k1 : A → Z) (k2 : B → Z) (f : A → B) (l : list A) :
  (∀ a, k2 (f a) = k1 a) →
  sort_by k2 (f <$> l) = f <$> sort_by k1 l.
Proof.
  intros Hk. induction l as [|x l IH]; csimpl; [done|].
  fold (sort_by k2 (f <$> l)). fold (sort_by k1 l).
  rewrite IH. by apply (insert_by_fmap k1 k2).
Qed.

(** X24: for every category with a positive screen position, the
    onboarding view has a screen of that category whose templates are the
    items of the active-template listing of the category, in the
    listing's order. *)
Theorem view_shows_listing (c : string) (s : Session) (r : PersonalizationTemplate) :
  first_by_category c s = Some r →
  0 < view_order r →
  ∃ views listing view,
    get_onboarding_templates_view s = (Return views, s)
    ∧ get_active_templates_for_category c s = (Return listing, s)
    ∧ view ∈ views
    ∧ view_category view = c
    ∧ view_templates view = to_item_response <$> listing.
Proof.
  intros Hr Hpos.
  exists (to_view_response
            <$> sort_by view_order (filter (λ r, 0 < view_order r) s)),
    (sort_by get_display_order
       (filter (λ t, get_is_active t = true) (templates r))),
    (to_view_response r).
  split; [done|]. split.
  { unfold get_active_templates_for_category. run_handler. by rewrite Hr. }
  split; [|split].
  - apply list_elem_of_fmap_2. rewrite sort_by_perm.
    apply list_elem_of_filter. split; [done|].
    by apply (first_by_category_elem_of c).
  - apply (first_by_category_category c s r Hr).
  - cbn [view_templates to_view_response]. by apply sort_by_fmap.
Qed.

Lemma view_shows_listing_witness :
  (first_by_category "goals" example_session = Some goals_row
   ∧ 0 < view_order goals_row)
  ∧ ∃ views listing view,
      get_onboarding_templates_view example_session
      = (Return views, example_session)
      ∧ get_active_templates_for_category "goals" example_session
        = (Return listing, example_session)
      ∧ view ∈ views
      ∧ view_category view = "goals"
      ∧ view_templates view = to_item_response <$> listing.
Proof.
  assert (H1 : first_by_category "goals" example_session = Some goals_row)
    by reflexivity.
  assert (H2 : 0 < view_order goals_row) by reflexivity.
  split; [by split|].
  exact (view_shows_listing "goals" example_session goals_row H1 H2).
Defined.

End AdminMore.

(** ** More on the onboarding status *)

Module OnboardingMore.
Import Profile Onboarding Normal Examples.

Lemma elem_of_append_if_missing (x y : string) (l : list string) :
  y ∈ append_if_missing x l ↔ y = x ∨ y ∈ l.
Proof.
  unfold append_if_missing. case_bool_decide as Hx.
  - split; [by right | by intros [->|?]].
  - rewrite elem_of_app, list_elem_of_singleton. tauto.
Qed.

(** Every screen that the marker or the profile data vouch for is in the
    list, and the welcome screen always is once a profile exists. *)
Lemma determine_completed_screens_welcome (stored : option string) (b1 b2 b3 : bool) :
  "welcome" ∈ determine_completed_screens true stored b1 b2 b3.
Proof.
  unfold determine_completed_screens.
  destruct b1, b2, b3; cbn [andb];
    rewrite ?elem_of_append_if_missing; tauto.
Qed.

Lemma determine_completed_screens_personalize (stored : option string) (b1 b2 : bool) :
  "personalize" ∈ determine_completed_screens true stored b1 b2 true.
Proof.
  unfold determine_completed_screens.
  rewrite elem_of_append_if_missing. by left.
Qed.

(** The closing loop keeps the screens of the sequence that are in the
    list, in the order of the sequence. *)
Lemma order_completed_filter (cs : list string) :
  order_completed cs = filter (λ x, x ∈ cs) ONBOARDING_SCREENS.
Proof.
  unfold order_completed, ONBOARDING_SCREENS. cbn [foldl].
  rewrite !filter_cons, filter_nil.
  destruct (decide ("welcome" ∈ cs)) as [H1|H1];
    [rewrite (bool_decide_eq_true_2 _ H1)
    |rewrite (bool_decide_eq_false_2 _ H1)];
    (destruct (decide ("breathe" ∈ cs)) as [H2|H2];
      [rewrite (bool_decide_eq_true_2 _ H2)
      |rewrite (bool_decide_eq_false_2 _ H2)]);
    (destruct (decide ("personalize" ∈ cs)) as [H3|H3];
      [rewrite (bool_decide_eq_true_2 _ H3)
      |rewrite (bool_decide_eq_false_2 _ H3)]);
    reflexivity.
Qed.

Lemma missing_nil (g c p : list Value) :
  is_nil (fst <$> filter (λ kv : string * list Value, truthy_list kv.2 = false)
                    [("goals", g); ("challenges", c);
                     ("practice_preferences", p)])
  = truthy_list g && truthy_list c && truthy_list p.
Proof. by destruct g, c, p. Qed.

Lemma truthy_list_true {A} (l : list A) : truthy_list l = true ↔ l ≠ [].
Proof. by destruct l. Qed.

(** X25: a profile counts as having completed the onboarding exactly when
    its [personalized_at] is set and its goals, challenges and practice
    preferences are all non-empty, whatever the stored screen marker says;
    the status then has no current and no next screen and lists the whole
    screen sequence as completed. *)
Theorem is_completed_iff (profile : UserProfile) :
  (is_completed (status_of_profile profile) = true
   ↔ is_Some (Profile.personalized_at profile)
     ∧ goals profile ≠ [] ∧ challenges profile ≠ []
     ∧ practice_preferences profile ≠ [])
  ∧ (is_completed (status_of_profile profile) = true →
     current_screen (status_of_profile profile) = None
     ∧ next_screen (status_of_profile profile) = None
     ∧ completed_screens (status_of_profile profile) = ONBOARDING_SCREENS
     ∧ missing_fields (status_of_profile profile) = []).
Proof.
  unfold status_of_profile. cbv zeta.
  cbn [is_completed current_screen next_screen completed_screens
         missing_fields].
  rewrite app_nil_l, missing_nil.
  split.
  - rewrite !andb_true_iff, bool_decide_eq_true, !truthy_list_true.
    split; [tauto|]. intros (Hat & Hg & Hc & Hp).
    repeat split; try done.
    rewrite (bool_decide_eq_true_2 _ Hat).
    rewrite bool_decide_eq_true. apply determine_completed_screens_personalize.
  - intros Hdone. rewrite Hdone.
    repeat split; try done.
    apply andb_true_iff in Hdone as [Hdone _].
    apply andb_true_iff in Hdone as [_ Hdone].
    destruct (goals profile), (challenges profile),
      (practice_preferences profile); done.
Qed.

(** *** The completion percentage *)

Lemma size_completed_bounds (cs : list string) :
  let n := size ((list_to_set cs : gset string)
                   ∩ list_to_set ONBOARDING_SCREENS) in
  (n ≤ 3)%nat
  ∧ ("welcome" ∈ cs → (1 ≤ n)%nat)
  ∧ ("welcome" ∈ cs → "personalize" ∈ cs → (2 ≤ n)%nat).
Proof.
  intros n. subst n. split; [|split].
  - change 3%nat
      with (size (list_to_set ONBOARDING_SCREENS : gset string)).
    apply subseteq_size, intersection_subseteq_r.
  - intros Hw.
    change 1%nat with (size ({[ "welcome" ]} : gset string)).
    apply subseteq_size. intros x Hx. apply elem_of_singleton in Hx as ->.
    apply elem_of_intersection. split; [by apply elem_of_list_to_set|].
    by apply (bool_decide_unpack _).
  - intros Hw Hp.
    change 2%nat with (size ({[ "welcome"; "personalize" ]} : gset string)).
    apply subseteq_size. intros x Hx.
    apply elem_of_union in Hx as [Hx|Hx]; apply elem_of_singleton in Hx as ->;
      (apply elem_of_intersection;
       split; [by apply elem_of_list_to_set | by apply (bool_decide_unpack _)]).
Qed.

Ltac evaluate_percentage :=
  repeat match goal with
         | |- context [Z.min ?a 100] =>
             let v := eval vm_compute in (Z.min a 100) in
             replace (Z.min a 100) with v by (vm_compute; reflexivity)
         end.

Lemma calculate_completion_bounds (cs : list string) (m : nat) (opts : list bool) :
  length opts = 6%nat → (m ≤ 3)%nat → "welcome" ∈ cs →
  13 ≤ calculate_completion cs 3 m opts ≤ 100
  ∧ ("personalize" ∈ cs → m = 0%nat → 86 ≤ calculate_completion cs 3 m opts).
Proof.
  intros Hlen Hm Hw. unfold calculate_completion. cbv zeta.
  destruct (size_completed_bounds cs) as (Hn3 & Hn1 & Hn2).
  specialize (Hn1 Hw). specialize (Hn2 Hw).
  pose proof (length_filter (λ v, v = true) opts) as Hf.
  replace (is_nil opts) with false by (by destruct opts).
  rewrite Hlen in *.
  generalize dependent (length (filter (λ v, v = true) opts)).
  generalize dependent
    (size ((list_to_set cs : gset string) ∩ list_to_set ONBOARDING_SCREENS)).
  intros n Hn3 Hn1 Hn2 f Hf.
  assert (Hn : n = 1%nat ∨ n = 2%nat ∨ n = 3%nat) by lia.
  assert (Hm' : m = 0%nat ∨ m = 1%nat ∨ m = 2%nat ∨ m = 3%nat) by lia.
  assert (Hf' : f = 0%nat ∨ f = 1%nat ∨ f = 2%nat ∨ f = 3%nat ∨ f = 4%nat
                ∨ f = 5%nat ∨ f = 6%nat) by lia.
  destruct_or! Hn; destruct_or! Hm'; destruct_or! Hf'; subst n m f;
    evaluate_percentage;
    (split; [lia|]; intros Hp Hm0; specialize (Hn2 Hp); lia).
Qed.

(** X26: the completion percentage of a profile's status lies between 13
    and 100, and is at least 86 once the onboarding counts as completed. *)
Theorem completion_percentage_bounds (profile : UserProfile) :
  13 ≤ completion_percentage (status_of_profile profile) ≤ 100
  ∧ (is_completed (status_of_profile profile) = true →
     86 ≤ completion_percentage (status_of_profile profile)).
Proof.
  unfold status_of_profile. cbv zeta.
  cbn [is_completed completion_percentage].
  rewrite app_nil_l.
  match goal with
  | |- context [calculate_completion ?cs ?rc ?m ?opts] =>
      change rc with 3%nat;
      destruct (calculate_completion_bounds cs m opts) as [Hb Hdone]
  end.
  - reflexivity.
  - rewrite length_fmap. etrans; [apply length_filter|]. done.
  - apply determine_completed_screens_welcome.
  - split; [exact Hb|]. intros Hc.
    apply andb_true_iff in Hc as [Hc Hp].
    apply andb_true_iff in Hc as [_ Hm].
    apply Hdone; [by apply bool_decide_eq_true in Hp|].
    by destruct (fst <$> filter _ _).
Qed.

End OnboardingMore.

(** ** Saving the profile *)

Module SaveFacts.
Import Catalog Onboarding Profile SaveProfile Normal Examples.
Import ProfileFacts CatalogFacts.

(** *** Dictionaries *)

Lemma dict_get_set_eq (k : string) (v : Value) (d : list (string * Value)) :
  dict_get k (dict_set k v d) = Some v.
Proof.
  induction d as [|[k' v'] d IH]; simpl.
  - by rewrite String.eqb_refl.
  - destruct (String.eqb_spec k' k) as [->|Hne]; simpl.
    + by rewrite String.eqb_refl.
    + by rewrite (proj2 (String.eqb_neq _ _) Hne).
Qed.

Lemma dict_get_set_ne (k k' : string) (v : Value) (d : list (string * Value)) :
  k ≠ k' → dict_get k' (dict_set k v d) = dict_get k' d.
Proof.
  intros Hne. induction d as [|[k0 v0] d IH]; simpl.
  - by rewrite (proj2 (String.eqb_neq _ _) Hne).
  - destruct (String.eqb_spec k0 k) as [->|Hne0]; simpl.
    + by rewrite (proj2 (String.eqb_neq _ _) Hne).
    + by rewrite IH.
Qed.

Lemma dict_get_None (k : string) (d : list (string * Value)) :
  dict_get k d = None ↔ k ∉ d.*1.
Proof.
  induction d as [|[k' v'] d IH]; csimpl.
  - split; [intros _; apply not_elem_of_nil | done].
  - rewrite not_elem_of_cons.
    destruct (String.eqb_spec k' k) as [->|Hne].
    + split; [done | by intros [? _]].
    + rewrite IH. split; [by split | by intros [_ ?]].
Qed.


Lemma dict_set_keys_present (k : string) (v : Value) (d : list (string * Value)) :
  k ∈ d.*1 → (dict_set k v d).*1 = d.*1.
Proof.
  induction d as [|[k' v'] d IH]; csimpl.
  - by intros ?%elem_of_nil.
  - destruct (String.eqb_spec k' k) as [->|Hne]; csimpl; [done|].
    intros Hin. apply elem_of_cons in Hin as [->|Hin]; [done|].
    by rewrite IH.
Qed.

Lemma dict_set_keys_absent (k : string) (v : Value) (d : list (string * Value)) :
  k ∉ d.*1 → (dict_set k v d).*1 = (d.*1 ++ [k])%list.
Proof.
  induction d as [|[k' v'] d IH]; csimpl; [done|].
  rewrite not_elem_of_cons. intros [Hne Hout].
  rewrite (proj2 (String.eqb_neq k' k)) by done. csimpl. by rewrite IH.
Qed.

Lemma dict_set_NoDup (k : string) (v : Value) (d : list (string * Value)) :
  NoDup d.*1 → NoDup (dict_set k v d).*1.
Proof.
  intros Hnd. destruct (decide (k ∈ d.*1)) as [Hin|Hout].
  - by rewrite dict_set_keys_present.
  - rewrite dict_set_keys_absent by done.
    apply NoDup_app. split; [done|]. split; [|apply NoDup_singleton].
    intros x Hx Hx'. apply list_elem_of_singleton in Hx'. by subst.
Qed.

Lemma elem_of_dict_set_keys (k k' : string) (v : Value) (d : list (string * Value)) :
  k' ∈ (dict_set k v d).*1 ↔ k' = k ∨ k' ∈ d.*1.
Proof.
  destruct (decide (k ∈ d.*1)) as [Hin|Hout].
  - rewrite dict_set_keys_present by done.
    split; [by right | by intros [->|?]].
  - rewrite dict_set_keys_absent, elem_of_app, list_elem_of_singleton by done.
    tauto.
Qed.

Lemma foldl_dict_set_NoDup (items d : list (string * Value)) :
  NoDup d.*1 → NoDup (foldl (λ d kv, dict_set kv.1 kv.2 d) d items).*1.
Proof.
  revert d. induction items as [|kv items IH]; intros d Hd; [done|].
  cbn [foldl]. by apply IH, dict_set_NoDup.
Qed.

Lemma elem_of_foldl_dict_set_keys (items d : list (string * Value)) (k : string) :
  k ∈ (foldl (λ d kv, dict_set kv.1 kv.2 d) d items).*1
  ↔ k ∈ items.*1 ∨ k ∈ d.*1.
Proof.
  revert d. induction items as [|[k1 v1] items IH]; intros d; cbn [foldl].
  - rewrite fmap_nil, elem_of_nil. tauto.
  - rewrite IH, elem_of_dict_set_keys, fmap_cons, elem_of_cons. simpl. tauto.
Qed.

Lemma flatten_NoDup (profile_data : UserProfileUpdate) :
  NoDup (flatten profile_data).*1.
Proof.
  unfold flatten. apply foldl_dict_set_NoDup.
  destruct (req_personalization_data profile_data) as [[d|]|];
    try apply NoDup_nil_2.
  apply foldl_dict_set_NoDup, NoDup_nil_2.
Qed.

(** *** Normalising the list fields *)

Lemma dict_get_is_Some (k : string) (v : Value) (d : list (string * Value)) :
  dict_get k d = Some v → k ∈ d.*1.
Proof.
  intros Hget. destruct (decide (k ∈ d.*1)) as [|Hout]; [done|].
  apply dict_get_None in Hout. congruence.
Qed.

Lemma normalize_fold (fields : list string) :
  NoDup fields →
  ∀ (d : list (string * Value)),
    let d' := foldl (λ d field,
                       match dict_get field d with
                       | Some VNone | None => d
                       | Some (VTuple l) | Some (VSet l) =>
                           dict_set field (VList l) d
                       | Some (VList l) => d
                       | Some v => dict_set field (VList [v]) d
                       end) d fields in
    d'.*1 = d.*1
    ∧ ∀ k, dict_get k d'
           = if decide (k ∈ fields) then normalize_value <$> dict_get k d
             else dict_get k d.
Proof.
  induction fields as [|f fields IH]; intros Hnd d; [by split|].
  apply NoDup_cons in Hnd as [Hf Hnd]. cbn [foldl].
  set (d1 := match dict_get f d with
             | Some VNone | None => d
             | Some (VTuple l) | Some (VSet l) => dict_set f (VList l) d
             | Some (VList l) => d
             | Some v => dict_set f (VList [v]) d
             end).
  assert (Hd1 : d1.*1 = d.*1
                ∧ dict_get f d1 = normalize_value <$> dict_get f d
                ∧ ∀ k, k ≠ f → dict_get k d1 = dict_get k d).
  { subst d1. destruct (dict_get f d) as [v|] eqn:Hget; [|done].
    pose proof (dict_get_is_Some f v d Hget) as Hin.
    destruct v; try done;
      (split; [by apply dict_set_keys_present|]);
      (split; [by rewrite dict_get_set_eq|]);
      intros k Hk; by rewrite dict_get_set_ne. }
  destruct Hd1 as (Hkeys & Hsame & Hother).
  destruct (IH Hnd d1) as [IHkeys IHget]. split; [congruence|].
  intros k. rewrite IHget.
  destruct (decide (k = f)) as [->|Hne].
  - rewrite (decide_False (P := f ∈ fields)) by done.
    rewrite decide_True by apply list_elem_of_here. done.
  - rewrite Hother by done.
    destruct (decide (k ∈ fields)) as [Hin|Hout].
    + rewrite decide_True by (by apply list_elem_of_further). done.
    + rewrite decide_False; [done|].
      rewrite not_elem_of_cons. by split.
Qed.

Lemma or_empty_normalize_value (v : Value) :
  or_empty (normalize_value v) = as_list v.
Proof. by destruct v. Qed.

(** *** Validating the submitted values *)

Lemma get_template_codes_run (c : string) (s : Session) :
  get_template_codes_for_category c s
  = (Return match first_by_category c s with
            | Some r => active_codes (templates r)
            | None => default_codes c
            end, s).
Proof.
  unfold get_template_codes_for_category. run_handler.
  by destruct (first_by_category c s).
Qed.

Lemma comprehension_filter (S : gset string) (codes l : list Value) :
  comprehension S true codes = Some l →
  l = filter (λ v, is_valid_code S v = true) codes.
Proof.
  revert l. induction codes as [|v codes IH]; intros l; simpl.
  - by intros [= <-].
  - unfold in_codes.
    destruct (hashable v); [|done].
    destruct (comprehension S true codes) as [l0|]; [|done].
    intros [= <-]. rewrite (IH l0 eq_refl).
    assert (Hv : match v with
                 | VStr code => bool_decide (code ∈ S)
                 | _ => false
                 end = is_valid_code S v) by (by destruct v).
    rewrite Hv. destruct (is_valid_code S v) eqn:Hvalid; simpl.
    + by rewrite filter_cons_True.
    + rewrite filter_cons_False; [done|]. by rewrite Hvalid.
Qed.

Lemma validate_values_Ok (c : string) (codes valid invalid : list Value) (s : Session) :
  validate_values c codes s = Ok (valid, invalid) →
  ∃ S, (get_template_codes_for_category c s).1 = Return S
       ∧ valid = filter (λ v, is_valid_code S v = true) codes.
Proof.
  unfold validate_values. rewrite get_template_codes_run. cbn [fst].
  eexists. split; [reflexivity|].
  destruct codes as [|v codes]; [by injection H as <- _|].
  simpl is_nil in H. cbv iota in H.
  match type of H with
  | context [comprehension ?S true ?l] =>
      destruct (comprehension S true l) as [l1|] eqn:H1; [|done];
      destruct (comprehension S false l) as [l2|]; [|done]
  end.
  injection H as <- _. by apply comprehension_filter.
Qed.

(** *** The five validation blocks *)

Lemma filter_selection_Ok (s : Session) (f c : string)
    (r : result (list (string * Value))) (d' : list (string * Value)) :
  filter_selection s f c r = Ok d' →
  ∃ d, r = Ok d
       ∧ d'.*1 = d.*1
       ∧ (∀ k, k ≠ f → dict_get k d' = dict_get k d)
       ∧ ∀ v, dict_get f d = Some v →
              ∃ valid invalid,
                validate_values c (or_empty v) s = Ok (valid, invalid)
                ∧ dict_get f d' = Some (VList valid).
Proof.
  destruct r as [d| |]; [|by simpl|by simpl]. simpl. intros Hstep.
  exists d. split; [done|].
  destruct (dict_get f d) as [v|] eqn:Hget.
  - destruct (validate_values c (or_empty v) s) as [[valid invalid]| |]
      eqn:Hval; [|done|done].
    injection Hstep as <-.
    split; [by apply dict_set_keys_present, (dict_get_is_Some f v)|].
    split; [intros k Hk; by apply dict_get_set_ne|].
    intros v0 [= <-]. exists valid, invalid.
    split; [done | apply dict_get_set_eq].
  - injection Hstep as <-. by repeat split.
Qed.

Lemma filter_fold (s : Session) (table : list (string * string)) :
  NoDup table.*1 →
  ∀ (r : result (list (string * Value))) (d' : list (string * Value)),
    foldl (λ r fc, filter_selection s fc.1 fc.2 r) r table = Ok d' →
    ∃ d, r = Ok d
         ∧ d'.*1 = d.*1
         ∧ (∀ k, k ∉ table.*1 → dict_get k d' = dict_get k d)
         ∧ ∀ f c v, (f, c) ∈ table → dict_get f d = Some v →
             ∃ valid invalid,
               validate_values c (or_empty v) s = Ok (valid, invalid)
               ∧ dict_get f d' = Some (VList valid).
Proof.
  induction table as [|[f1 c1] table IH]; intros Hnd r d' Hfold.
  - exists d'. split; [done|]. split; [done|]. split; [done|].
    intros f c v Hin. by apply elem_of_nil in Hin.
  - rewrite fmap_cons in Hnd. apply NoDup_cons in Hnd as [Hf1 Hnd].
    cbn [foldl] in Hfold.
    destruct (IH Hnd _ _ Hfold) as (d1 & Hd1 & Hkeys1 & Hother1 & Hsame1).
    destruct (filter_selection_Ok s f1 c1 r d1 Hd1)
      as (d & -> & Hkeys & Hother & Hsame).
    exists d. split; [done|]. split; [congruence|]. split.
    + intros k Hk. rewrite fmap_cons, not_elem_of_cons in Hk.
      destruct Hk as [Hne Hk]. rewrite Hother1 by done.
      apply Hother. by intros ->.
    + intros f c v Hin Hget.
      apply elem_of_cons in Hin as [[= -> ->]|Hin].
      * destruct (Hsame v Hget) as (valid & invalid & Hval & Hget1).
        exists valid, invalid. split; [done|].
        by rewrite Hother1.
      * apply (Hsame1 f c v Hin). rewrite Hother; [done|].
        intros ->. apply Hf1. by apply (list_elem_of_fmap_2 fst) in Hin.
Qed.

(** *** The profile rows *)

Lemma first_by_user_id_user_id (uid : UUID) (l : list UserProfile) (p : UserProfile) :
  first_by_user_id uid l = Some p → user_id p = uid.
Proof.
  unfold first_by_user_id. induction l as [|q l IH]; [done|].
  rewrite filter_cons. destruct (decide (user_id q = uid)) as [Hq|Hq].
  - by intros [= <-].
  - apply IH.
Qed.

Lemma first_by_user_id_write_back (uid : UUID) (l : list UserProfile) (p0 p : UserProfile) :
  first_by_user_id uid l = Some p0 → user_id p = uid →
  first_by_user_id uid (write_back_profile p l) = Some p.
Proof.
  unfold first_by_user_id. intros Hfind Hp.
  induction l as [|q l IH]; [done|]. simpl write_back_profile.
  rewrite filter_cons in Hfind.
  destruct (decide (user_id q = user_id p)) as [Hq|Hq].
  - by rewrite filter_cons_True.
  - rewrite decide_False in Hfind by congruence.
    rewrite filter_cons_False by congruence. by apply IH.
Qed.

Lemma first_by_user_id_write_back_ne (uid' : UUID) (l : list UserProfile) (p : UserProfile) :
  user_id p ≠ uid' →
  first_by_user_id uid' (write_back_profile p l) = first_by_user_id uid' l.
Proof.
  unfold first_by_user_id. intros Hne.
  induction l as [|q l IH]; [done|]. simpl write_back_profile.
  destruct (decide (user_id q = user_id p)) as [Hq|Hq].
  - rewrite !filter_cons_False by congruence. done.
  - rewrite !filter_cons. by destruct (decide (user_id q = uid')).
Qed.

(** *** The handler *)

Lemma filter_selections_fold (s : Session) (u : list (string * Value)) :
  filter_selections s u
  = foldl (λ r fc, filter_selection s fc.1 fc.2 r) (Ok u) selection_categories.
Proof. done. Qed.

Lemma selection_categories_NoDup : NoDup selection_categories.*1.
Proof. apply (bool_decide_unpack _). by vm_compute. Qed.

Lemma selection_field (f c : string) :
  (f, c) ∈ selection_categories →
  f ∈ PERSONALIZATION_LIST_FIELDS ∧ f ∈ _LIST_FIELDS.
Proof.
  unfold selection_categories. rewrite !elem_of_cons, elem_of_nil.
  intros H. destruct_or! H; try done; injection H as -> ->;
    (split; apply (bool_decide_unpack _); by vm_compute).
Qed.

(** What a successful run did. *)
Lemma update_my_user_profile_Ok (now1 now2 : datetime) (catalog : Session)
    (uid : UUID) (req : UserProfileUpdate) (l l' : list UserProfile)
    (p' : UserProfile) :
  update_my_user_profile now1 now2 catalog uid req l = (Ok p', l') →
  ∃ u profile,
    filter_selections catalog (normalize_list_fields (flatten req)) = Ok u
    ∧ first_by_user_id uid l = Some profile
    ∧ p' = assign_metadata now1 now2 (requested_screen req)
             (match req_timezone req with Some tz => tz | None => None end)
             (update_personalization profile u)
    ∧ l' = write_back_profile p' l.
Proof.
  unfold update_my_user_profile.
  destruct (filter_selections catalog _) as [u| |]; [|done|done].
  destruct (first_by_user_id uid l) as [profile|]; [|done].
  intros [= <- <-]. by exists u, profile.
Qed.

(** The dictionary handed to the bulk update. *)
Lemma filtered_updates (catalog : Session) (req : UserProfileUpdate)
    (u : list (string * Value)) :
  filter_selections catalog (normalize_list_fields (flatten req)) = Ok u →
  NoDup u.*1
  ∧ u.*1 = (flatten req).*1
  ∧ ∀ f c v, (f, c) ∈ selection_categories →
      dict_get f (flatten req) = Some v →
      ∃ S, (get_template_codes_for_category c catalog).1 = Return S
           ∧ dict_get f u
             = Some (VList (filter (λ x, is_valid_code S x = true)
                              (as_list v))).
Proof.
  rewrite filter_selections_fold. intros Hfold.
  destruct (filter_fold catalog _ selection_categories_NoDup _ _ Hfold)
    as (d & [= <-] & Hkeys & _ & Hsame).
  unfold normalize_list_fields in Hkeys, Hsame.
  destruct (normalize_fold PERSONALIZATION_LIST_FIELDS
              ltac:(apply (bool_decide_unpack _); by vm_compute)
              (flatten req)) as [Hnkeys Hnget].
  cbv zeta in Hnkeys, Hnget.
  assert (Hu : u.*1 = (flatten req).*1) by congruence.
  split; [rewrite Hu; apply flatten_NoDup|]. split; [done|].
  intros f c v Hfc Hget.
  destruct (selection_field f c Hfc) as [Hf _].
  destruct (Hsame f c (normalize_value v) Hfc) as (valid & invalid & Hval & Hu').
  { rewrite Hnget, decide_True by done. by rewrite Hget. }
  rewrite or_empty_normalize_value in Hval.
  destruct (validate_values_Ok _ _ _ _ _ Hval) as (S & HS & ->).
  by exists S.
Qed.

Lemma elem_of_flatten_keys (req : UserProfileUpdate) (k : string) :
  k ∈ (flatten req).*1 ↔ k ∈ request_keys req.
Proof.
  unfold flatten, request_keys, dict_of_items.
  rewrite elem_of_foldl_dict_set_keys, elem_of_app.
  destruct (req_personalization_data req) as [[d|]|];
    rewrite ?elem_of_foldl_dict_set_keys, ?fmap_nil, ?elem_of_nil; tauto.
Qed.




Lemma update_personalization_fields (profile : UserProfile) (u : list (string * Value)) :
  user_id (update_personalization profile u) = user_id profile
  ∧ personalized_at (update_personalization profile u) = personalized_at profile
  ∧ Profile.created_at (update_personalization profile u)
    = Profile.created_at profile
  ∧ onboarding_started_at (update_personalization profile u)
    = onboarding_started_at profile
  ∧ Profile.onboarding_screen (update_personalization profile u)
    = Profile.onboarding_screen profile
  ∧ timezone (update_personalization profile u) = timezone profile.
Proof. by destruct u. Qed.


Lemma length_write_back_profile (p : UserProfile) (l : list UserProfile) :
  length (write_back_profile p l) = length l.
Proof.
  induction l as [|q l IH]; [done|]. simpl.
  destruct (decide (user_id q = user_id p)); simpl; by rewrite ?IH.
Qed.

Lemma update_my_user_profile_failed (now1 now2 : datetime) (catalog : Session)
    (uid : UUID) (req : UserProfileUpdate) (l : list UserProfile) :
  (∃ p', (update_my_user_profile now1 now2 catalog uid req l).1 = Ok p')
  ∨ (update_my_user_profile now1 now2 catalog uid req l).2 = l.
Proof.
  unfold update_my_user_profile.
  destruct (filter_selections catalog _) as [u| |]; [|by right|by right].
  destruct (first_by_user_id uid l); [left; by eexists|by right].
Qed.

Lemma update_personalization_other (profile : UserProfile)
    (u : list (string * Value)) (k : string) :
  k ∉ u.*1 →
  data_or_empty (update_personalization profile u) !! k
  = data_or_empty profile !! k.
Proof.
  intros Hk. destruct u as [|kv u]; [done|].
  rewrite update_personalization_data by done.
  by apply foldl_update_entry_other.
Qed.

Lemma data_or_empty_assign_metadata (now1 now2 : datetime)
    (sc tz : option string) (p : UserProfile) :
  data_or_empty (assign_metadata now1 now2 sc tz p) = data_or_empty p.
Proof. reflexivity. Qed.

Lemma user_id_assign_metadata (now1 now2 : datetime)
    (sc tz : option string) (p : UserProfile) :
  user_id (assign_metadata now1 now2 sc tz p) = user_id p.
Proof. reflexivity. Qed.

(** X29: a save that fails writes nothing. A save that succeeds replaces
    the row of the user by the returned profile and nothing else: the
    table keeps its length, the rows of all other users are found as
    before, and in the user's document every key that the request does
    not mention keeps its binding. *)
Theorem save_frame (now1 now2 : datetime) (catalog : Session)
    (uid : UUID) (req : UserProfileUpdate) (l : list UserProfile) :
  match update_my_user_profile now1 now2 catalog uid req l with
  | (Ok p', l') =>
      ∃ profile,
        first_by_user_id uid l = Some profile
        ∧ first_by_user_id uid l' = Some p'
        ∧ length l' = length l
        ∧ (∀ uid', uid' ≠ uid →
             first_by_user_id uid' l' = first_by_user_id uid' l)
        ∧ (∀ k, k ∉ request_keys req →
             data_or_empty p' !! k = data_or_empty profile !! k)
  | (_, l') => l' = l
  end.
Proof.
  pose proof (update_my_user_profile_failed now1 now2 catalog uid req l)
    as Hfail.
  destruct (update_my_user_profile now1 now2 catalog uid req l)
    as [r l'] eqn:Hrun.
  destruct r as [p'|e|].
  - clear Hfail.
    destruct (update_my_user_profile_Ok _ _ _ _ _ _ _ _ Hrun)
      as (u & profile & Hu & Hfind & Hp' & Hl').
    destruct (filtered_updates catalog req u Hu) as (_ & Hkeys & _).
    assert (Hid : user_id p' = uid).
    { rewrite Hp', user_id_assign_metadata.
      destruct (update_personalization_fields profile u) as (-> & _).
      by apply first_by_user_id_user_id in Hfind. }
    exists profile. split; [exact Hfind|].
    rewrite Hl'.
    split; [exact (first_by_user_id_write_back uid l profile p' Hfind Hid)|].
    split; [apply length_write_back_profile|]. split.
    + intros uid' Hne. apply first_by_user_id_write_back_ne. congruence.
    + intros k Hk. rewrite Hp', data_or_empty_assign_metadata.
      apply update_personalization_other.
      rewrite Hkeys. by rewrite elem_of_flatten_keys.
  - destruct Hfail as [[p' Hp']|Hl]; [discriminate Hp'|exact Hl].
  - destruct Hfail as [[p' Hp']|Hl]; [discriminate Hp'|exact Hl].
Qed.






End SaveFacts.
